(** * Freight transport network: tonnage ledgers, OD pairs, costs, regrouping

    A shallow embedding of the costing engine of the freight transport
    network model:

    - [modules/builder/components/tons.py]  ([OdTons], [LinkTons]),
    - [modules/builder/components/od.py]    ([BasePath], [Path], [OD]),
    - [modules/cost.py]                     ([RailwayNetworkCost],
                                             [RoadwayNetworkCost]),
    - [modal_networks.py]                   ([BaseModalNetwork],
                                             [RailwayNetwork]).

    Numbers.  The program computes with Python floats.  They are modelled
    by exact rationals ([Q]); equality of tonnages and costs is therefore
    [Qeq] ([==]), and the statements below are statements about the
    arithmetic the program denotes, not about binary rounding.

    Exceptions.  A Python call either returns or raises; fallible code
    returns a [result].  Mutable objects that can be aliased ([OdTons],
    [OD]) live in a heap and are passed by reference. *)

From Stdlib Require Import QArith Qcanon Qabs Qround Lqa ZArith Lia.
From Stdlib Require Import Ascii String List.
From Stdlib Require Import DecimalString DecimalZ DecimalPos.
From stdpp Require Import base option list gmap strings.

Open Scope Q_scope.

(** ** Python exceptions and results *)

Inductive PyExc : Type :=
| AssertionError (msg : string)
| ZeroDivisionError
| KeyError
| IndexError
| ValueError
| TypeError
| AttributeError
| DanglingReference.   (* model only: a reference that was never allocated *)

Inductive result (A : Type) : Type :=
| Ok (a : A)
| Raise (e : PyExc).
Arguments Ok {A} a.
Arguments Raise {A} e.

Definition rbind {A B} (r : result A) (k : A -> result B) : result B :=
  match r with
  | Ok a => k a
  | Raise e => Raise e
  end.

Declare Scope py_scope.
Delimit Scope py_scope with py.
Notation "'let*' x := c 'in' k" := (rbind c (fun x => k))
  (at level 10, x name, c at level 100, k at level 200) : py_scope.
Notation "'let*' ' p := c 'in' k" :=
  (rbind c (fun x => match x with p => k end))
  (at level 10, p pattern, c at level 100, k at level 200) : py_scope.
Open Scope py_scope.

(** [assert cond, msg] *)
Definition py_assert (cond : bool) (msg : string) : result unit :=
  if cond then Ok tt else Raise (AssertionError msg).

(** ** Float arithmetic, as rationals *)

Definition Qltb (x y : Q) : bool := negb (Qle_bool y x).

(** [x / y] on floats raises [ZeroDivisionError] when [y] is zero. *)
Definition py_div (x y : Q) : result Q :=
  if Qeq_bool y 0 then Raise ZeroDivisionError else Ok (x / y).

(** ** A heap of mutable objects

    [M T A] is a computation over a heap of objects of class [T] that
    returns an [A] or raises.  References are indices into the heap. *)

Module Heap.
Section Heap.
Context {T : Type}.

Definition M (A : Type) : Type := list T -> result (A * list T).

Definition ret {A} (a : A) : M A := fun h => Ok (a, h).

Definition bind {A B} (c : M A) (k : A -> M B) : M B :=
  fun h => match c h with
           | Ok (a, h') => k a h'
           | Raise e => Raise e
           end.

Definition raise {A} (e : PyExc) : M A := fun _ => Raise e.

Definition lift {A} (r : result A) : M A :=
  fun h => match r with Ok a => Ok (a, h) | Raise e => Raise e end.

(** Object creation: the new object gets a fresh reference. *)
Definition new (v : T) : M nat := fun h => Ok (length h, h ++ [v]).

Definition read (r : nat) : M T :=
  fun h => match h !! r with
           | Some v => Ok (v, h)
           | None => Raise DanglingReference
           end.

Definition write (r : nat) (v : T) : M unit :=
  fun h => match h !! r with
           | Some _ => Ok (tt, <[r := v]> h)
           | None => Raise DanglingReference
           end.

Definition modify (r : nat) (f : T -> T) : M unit :=
  bind (read r) (fun v => write r (f v)).
End Heap.
Arguments M : clear implicits.
End Heap.

Declare Scope heap_scope.
Delimit Scope heap_scope with heap.
Notation "x <- c ;; k" := (Heap.bind c (fun x => k))
  (at level 20, c at level 99, k at level 200, only parsing)
  : heap_scope.
Notation "'exec' c ;; k" := (Heap.bind c (fun _ => k))
  (at level 20, c at level 99, k at level 200, only parsing)
  : heap_scope.

(** ** [OdTons]: the scalar ledger of an OD pair (tons.py) *)

Module OdTons.

(** [self.tons = {"original": ..., "derived": ...}] plus the two other
    data members set by [__init__]. *)
Record t : Type := mk {
  original : Q;
  derived : Q;
  projection_factor : Q;
  category : option Z
}.

Definition M := Heap.M t.

(** [self.tons[mode]] *)
Definition tons_getitem (o : t) (mode : string) : result Q :=
  if String.eqb mode "original" then Ok (original o)
  else if String.eqb mode "derived" then Ok (derived o)
  else Raise KeyError.

(** [self.tons[mode] = v]; a new key would be added to the dictionary,
    which the two-field record cannot hold: no method of the class
    stores under another key. *)
Definition tons_setitem (o : t) (mode : string) (v : Q) : result t :=
  if String.eqb mode "original"
  then Ok (mk v (derived o) (projection_factor o) (category o))
  else if String.eqb mode "derived"
  then Ok (mk (original o) v (projection_factor o) (category o))
  else Raise KeyError.

Open Scope heap_scope.

(** [OdTons(original_ton=0.0, category=None)] *)
Definition __init__ (original_ton : Q) (category : option Z) : M nat :=
  Heap.new (mk original_ton 0 1 category).

Definition get_original (self : nat) : M Q :=
  o <- Heap.read self ;; Heap.ret (original o).

Definition get_derived (self : nat) : M Q :=
  o <- Heap.read self ;; Heap.ret (derived o).

(** [get(mode=None)]: [if mode:] is false for [None] and for the empty
    string. *)
Definition get (self : nat) (mode : option string) : M Q :=
  match mode with
  | Some m =>
      if String.eqb m ""
      then (o <- get_original self ;; d <- get_derived self ;;
            Heap.ret (o + d))
      else (o <- Heap.read self ;; Heap.lift (tons_getitem o m))
  | None =>
      o <- get_original self ;; d <- get_derived self ;; Heap.ret (o + d)
  end.

(** [_add_ton]: [if not self.get(mode)] holds when the stored float is
    zero. *)
Definition _add_ton (self : nat) (ton : Q) (mode : string) : M unit :=
  cur <- get self (Some mode) ;;
  o <- Heap.read self ;;
  if Qeq_bool cur 0
  then (o' <- Heap.lift (tons_setitem o mode ton) ;; Heap.write self o')
  else (v <- Heap.lift (tons_getitem o mode) ;;
        o' <- Heap.lift (tons_setitem o mode (v + ton)) ;;
        Heap.write self o').

Definition add_original (self : nat) (ton : Q) : M unit :=
  _add_ton self ton "original".

Definition _add_derived_ton (self : nat) (ton : Q) : M unit :=
  _add_ton self ton "derived".

Definition _remove_ton (self : nat) (ton : Q) (mode : string) : M unit :=
  cur <- get self (Some mode) ;;
  exec Heap.lift (py_assert (Qle_bool ton cur)
               ("Can't remove more " ++ mode ++ " tons than existent ones")) ;;
  o <- Heap.read self ;;
  v <- Heap.lift (tons_getitem o mode) ;;
  o' <- Heap.lift (tons_setitem o mode (v - ton)) ;;
  Heap.write self o'.

Definition _remove_derived_ton (self : nat) (ton : Q) : M unit :=
  _remove_ton self ton "derived".

Definition _remove_original_ton (self : nat) (ton : Q) : M unit :=
  _remove_ton self ton "original".

(** [derive(other, coeff=1.0, allow_original=True)] *)
Definition derive (self other : nat) (coeff : Q) (allow_original : bool)
  : M (Q * Q) :=
  so <- get_original self ;;
  od <- get_derived other ;;
  let self_original_ton := so + od in
  let ton_should_be_derived := self_original_ton * coeff in
  ton_already_derived <- get_derived other ;;
  let ton_to_derive := ton_should_be_derived - ton_already_derived in
  ton_to_return <- get_derived self ;;
  let ton_to_derive := if allow_original then ton_to_derive else 0 in
  exec _remove_original_ton self ton_to_derive ;;
  exec _remove_derived_ton self ton_to_return ;;
  exec _add_derived_ton other ton_to_derive ;;
  exec add_original other ton_to_return ;;
  Heap.ret (ton_to_derive, ton_to_return).

(** [project] and [revert_project] *)
Definition project (self : nat) (factor : Q) : M unit :=
  Heap.modify self (fun o =>
    mk (original o * factor) (derived o * factor) factor (category o)).

Definition revert_project (self : nat) : M unit :=
  o <- Heap.read self ;;
  a <- Heap.lift (py_div (original o) (projection_factor o)) ;;
  exec Heap.write self
         (mk a (derived o) (projection_factor o) (category o)) ;;
  o <- Heap.read self ;;
  b <- Heap.lift (py_div (derived o) (projection_factor o)) ;;
  Heap.write self (mk (original o) b 1 (category o)).

(** All tons held by the ledger behind a reference. *)
Definition total (h : list t) (r : nat) : Q :=
  match h !! r with
  | Some o => original o + derived o
  | None => 0
  end.

Close Scope heap_scope.
End OdTons.

(** ** Python strings: [split], [int], [str] *)

Module PyStr.

(** [s.split(sep)] for a one-character separator. *)
Fixpoint split (sep : ascii) (s : string) : list string :=
  match s with
  | EmptyString => [EmptyString]
  | String c rest =>
      if Ascii.eqb c sep then EmptyString :: split sep rest
      else match split sep rest with
           | [] => [String c EmptyString]
           | w :: ws => String c w :: ws
           end
  end.

Definition is_space (c : ascii) : bool :=
  let n := nat_of_ascii c in
  (Nat.eqb n 32 || (Nat.leb 9 n && Nat.leb n 13))%bool.

Fixpoint lstrip (s : string) : string :=
  match s with
  | String c rest => if is_space c then lstrip rest else s
  | EmptyString => EmptyString
  end.

Fixpoint rstrip (s : string) : string :=
  match s with
  | String c rest =>
      match rstrip rest with
      | EmptyString => if is_space c then EmptyString
                       else String c EmptyString
      | r => String c r
      end
  | EmptyString => EmptyString
  end.

(** [int(s)]: surrounding whitespace, an optional sign, decimal digits;
    anything else raises [ValueError]. *)
Definition int (s : string) : result Z :=
  let s := rstrip (lstrip s) in
  let '(neg, digits) :=
    match s with
    | String "-"%char r => (true, r)
    | String "+"%char r => (false, r)
    | _ => (false, s)
    end in
  match digits with
  | EmptyString => Raise ValueError
  | _ =>
      match NilEmpty.uint_of_string digits with
      | Some u => Ok (if neg then (- Z.of_uint u)%Z else Z.of_uint u)
      | None => Raise ValueError
      end
  end.

(** [str(n)] for an integer. *)
Definition str (n : Z) : string := NilZero.string_of_int (Z.to_int n).

(** [[int(i) for i in l]] *)
Fixpoint ints (l : list string) : result (list Z) :=
  match l with
  | [] => Ok []
  | s :: rest =>
      let* n := int s in
      let* ns := ints rest in
      Ok (n :: ns)
  end.

(** [c in s] for a one-character string [c]. *)
Fixpoint contains (c : ascii) (s : string) : bool :=
  match s with
  | EmptyString => false
  | String x rest => Ascii.eqb x c || contains c rest
  end.

End PyStr.

(** ** Collaborator classes that are interfaces here

    The link class and the rolling-material class are used through their
    methods only; their members are the operations of an interface. *)

Class LinkClass (L : Type) : Type := {
  (** [link.get_ton()] *)
  link_get_ton : L -> Q;
  (** [link.get_dist()], also read as the attribute [link.dist] *)
  link_get_dist : L -> Q;
  (** the attribute [link.idle_capacity] *)
  link_idle_capacity : L -> Q;
  (** [link.regroup(x)] and [link.revert_regroup(x)] *)
  link_regroup : Q -> L -> L;
  link_revert_regroup : Q -> L -> L;
  (** [link.get_gross_ton_km(wagon_capacity, wagon_weight,
      locomotive_capacity, locomotive_weight)] *)
  link_get_gross_ton_km : Q -> Q -> Q -> Q -> L -> result Q;
  (** the assignments [link.eac_detour = ..], [link.eac_track = ..],
      [link.maintenance = ..] *)
  link_set_eac_detour : Q -> L -> L;
  link_set_eac_track : Q -> L -> L;
  link_set_maintenance : Q -> L -> L
}.

Class RollingMaterialClass (R : Type) : Type := {
  rm_get_units_needed_by_time : R -> Q;
  rm_get_average_haul : R -> Q;
  rm_get_operation_time : R -> Q;
  (** [regroup(units, dist)] and [revert_regroup(units, dist)] *)
  rm_regroup : Q -> Q -> R -> R;
  rm_revert_regroup : Q -> Q -> R -> R;
  (** [add_regroup_time(wagons)] and [subtract_regroup_time(wagons)] *)
  rm_add_regroup_time : Q -> R -> R;
  rm_subtract_regroup_time : Q -> R -> R
}.

(** The link table of a network: [links[id_link][gauge]]. *)
Abbreviation LinkTable L := (gmap string (gmap string L)).

(** ** [BasePath] and [OD] (od.py) *)

Module OD.

(** The data members set by [OD.__init__].  [lowest_link] (a reference
    to a link, [None] after construction) is only read by the report
    getters and is not part of the record. *)
Record t : Type := mk {
  id : string;
  nodes : list Z;
  path : option string;
  path_nodes : option (list Z);
  gauge : option string;
  dist : option Q;
  links : list string;
  original_ton : Q;
  derived_ton : Q;
  rail_category : option Z;
  deposit_cost : option Q;
  short_freight_cost : option Q;
  immo_value_cost : option Q
}.

Definition M := Heap.M t.

(** [nodes[i]] *)
Definition nth_node (nodes : list Z) (i : nat) : result Z :=
  match nodes !! i with
  | Some n => Ok n
  | None => Raise IndexError
  end.

(** [BasePath._get_safe_id] *)
Definition _get_safe_id (id : string) : result string :=
  let* nodes := PyStr.ints (PyStr.split "-" id) in
  let* n0 := nth_node nodes 0 in
  let* n1 := nth_node nodes 1 in
  if (n0 <? n1)%Z
  then Ok (PyStr.str n0 ++ "-" ++ PyStr.str n1)%string
  else Ok (PyStr.str n1 ++ "-" ++ PyStr.str n0)%string.

(** [BasePath._get_path_nodes]: [self.path] is true when it is a
    non-empty string; the bare [except] turns any failure into [None]. *)
Definition _get_path_nodes (path : option string) (nodes : list Z)
  : result (option (list Z)) :=
  match path with
  | Some p =>
      if String.eqb p "" then Ok None
      else
        let* n0 := nth_node nodes 0 in
        let* n1 := nth_node nodes 1 in
        if negb (n0 =? n1)%Z
        then match PyStr.ints (PyStr.split "-" p) with
             | Ok ns => Ok (Some ns)
             | Raise _ => Ok None
             end
        else Ok None
  | None => Ok None
  end.

(** One link id per pair of consecutive path nodes, lower node first. *)
Fixpoint links_of_nodes (ns : list Z) : list string :=
  match ns with
  | node_a :: ((node_b :: _) as rest) =>
      (if (node_a <? node_b)%Z
       then PyStr.str node_a ++ "-" ++ PyStr.str node_b
       else PyStr.str node_b ++ "-" ++ PyStr.str node_a)%string
      :: links_of_nodes rest
  | _ => []
  end.

(** [BasePath._create_links_list]: [if self.path_nodes] is false for
    [None] and for the empty list. *)
Definition _create_links_list (path_nodes : option (list Z)) : list string :=
  match path_nodes with
  | Some ns => links_of_nodes ns
  | None => []
  end.

(** The object built by [OD(id, ton, path=None, gauge=None, dist=None,
    rail_category=None)]. *)
Definition construct (id_ : string) (ton : Q) (path_ gauge_ : option string)
    (dist_ : option Q) (rail_category_ : option Z) : result t :=
  let* sid := _get_safe_id id_ in
  let* nodes_ := PyStr.ints (PyStr.split "-" sid) in
  let* pn := _get_path_nodes path_ nodes_ in
  Ok (mk sid nodes_ path_ pn gauge_ dist_ (_create_links_list pn)
         ton 0 rail_category_ None None None).

Open Scope heap_scope.

Definition __init__ (id_ : string) (ton : Q) (path_ gauge_ : option string)
    (dist_ : option Q) (rail_category_ : option Z) : M nat :=
  o <- Heap.lift (construct id_ ton path_ gauge_ dist_ rail_category_) ;;
  Heap.new o.

Definition get_id (self : nat) : M string :=
  o <- Heap.read self ;; Heap.ret (id o).

Definition get_original_ton (self : nat) : M Q :=
  o <- Heap.read self ;; Heap.ret (original_ton o).

Definition get_derived_ton (self : nat) : M Q :=
  o <- Heap.read self ;; Heap.ret (derived_ton o).

Definition get_ton (self : nat) : M Q :=
  a <- get_original_ton self ;; b <- get_derived_ton self ;;
  Heap.ret (a + b).

Definition get_dist (self : nat) : M (option Q) :=
  o <- Heap.read self ;; Heap.ret (dist o).

Definition get_category (self : nat) : M (option Z) :=
  o <- Heap.read self ;; Heap.ret (rail_category o).

Definition set_original_ton (v : Q) (o : t) : t :=
  mk (id o) (nodes o) (path o) (path_nodes o) (gauge o) (dist o) (links o)
     v (derived_ton o) (rail_category o)
     (deposit_cost o) (short_freight_cost o) (immo_value_cost o).

Definition set_derived_ton (v : Q) (o : t) : t :=
  mk (id o) (nodes o) (path o) (path_nodes o) (gauge o) (dist o) (links o)
     (original_ton o) v (rail_category o)
     (deposit_cost o) (short_freight_cost o) (immo_value_cost o).

Definition set_dist (v : option Q) (o : t) : t :=
  mk (id o) (nodes o) (path o) (path_nodes o) (gauge o) v (links o)
     (original_ton o) (derived_ton o) (rail_category o)
     (deposit_cost o) (short_freight_cost o) (immo_value_cost o).

Definition add_original_ton (self : nat) (ton : Q) : M unit :=
  Heap.modify self (fun o => set_original_ton (original_ton o + ton) o).

(** [BasePath.calc_distance]: a link or gauge missing from the table is
    reported and skipped. *)
Definition path_distance {L} `{LinkClass L} (network_links : LinkTable L)
    (o : t) : Q :=
  fold_left
    (fun dist od_link =>
       match gauge o with
       | Some g =>
           match network_links !! od_link with
           | Some lg =>
               match lg !! g with
               | Some l => dist + link_get_dist l
               | None => dist
               end
           | None => dist
           end
       | None => dist
       end)
    (links o) 0.

(** [OD.calc_distance] stores the result in [self.dist]. *)
Definition calc_distance {L} `{LinkClass L} (self : nat)
    (network_links : LinkTable L) : M unit :=
  Heap.modify self (fun o => set_dist (Some (path_distance network_links o)) o).

(** [OD.derive_ton(other, coeff=1.0)] *)
Definition derive_ton (self other : nat) (coeff : Q) : M (Q * Q) :=
  sid <- get_id self ;;
  oid <- get_id other ;;
  scat <- get_category self ;;
  ocat <- get_category other ;;
  exec Heap.lift
    (py_assert (String.eqb sid oid && bool_decide (scat = ocat))
       "OD pairs are different") ;;
  so <- get_original_ton self ;;
  od <- get_derived_ton other ;;
  let self_original_ton := so + od in
  let ton_should_be_derived := self_original_ton * coeff in
  ton_already_derived <- get_derived_ton other ;;
  let ton_to_derive := ton_should_be_derived - ton_already_derived in
  ton_to_return <- get_derived_ton self ;;
  exec Heap.modify self
    (fun o => set_original_ton (original_ton o - ton_to_derive) o) ;;
  exec Heap.modify self
    (fun o => set_derived_ton (derived_ton o - ton_to_return) o) ;;
  exec Heap.modify other
    (fun o => set_derived_ton (derived_ton o + ton_to_derive) o) ;;
  exec Heap.modify other
    (fun o => set_original_ton (original_ton o + ton_to_return) o) ;;
  Heap.ret (ton_to_derive, ton_to_return).

(** [OD.set_path(path, gauge)]: path nodes and links are computed anew
    from the new path. *)
Definition set_path (self : nat) (path_ gauge_ : option string) : M unit :=
  o <- Heap.read self ;;
  pn <- Heap.lift (_get_path_nodes path_ (nodes o)) ;;
  Heap.write self
    (mk (id o) (nodes o) path_ pn gauge_ (dist o) (_create_links_list pn)
        (original_ton o) (derived_ton o) (rail_category o)
        (deposit_cost o) (short_freight_cost o) (immo_value_cost o)).

(** [has_declared_path], [is_intrazone], [has_operable_path] *)
Definition truthy_str (s : option string) : bool :=
  match s with
  | Some v => negb (String.eqb v "")
  | None => false
  end.

Definition has_declared_path (o : t) : bool :=
  truthy_str (path o) && truthy_str (gauge o).

Definition is_intrazone (o : t) : bool :=
  (length (nodes o) =? 2)%nat &&
  match nodes o with
  | n0 :: n1 :: _ => (n0 =? n1)%Z
  | _ => false
  end.

Definition has_operable_path (o : t) : bool :=
  has_declared_path o &&
  match path_nodes o with
  | Some (_ :: _) => true
  | _ => false
  end.

(** All tons held by the OD pair behind a reference. *)
Definition total (h : list t) (r : nat) : Q :=
  match h !! r with
  | Some o => original_ton o + derived_ton o
  | None => 0
  end.

Close Scope heap_scope.
End OD.

(** ** [Path] (od.py): a stored path, with the methods of [BasePath] *)

Module Path.

Record t : Type := mk {
  id : string;
  path : option string;
  gauge : option string;
  nodes : list Z;
  path_nodes : option (list Z);
  links : list string
}.

(** [Path(id, path, gauge)] *)
Definition __init__ (id_ : string) (path_ gauge_ : option string)
  : result t :=
  let* sid := OD._get_safe_id id_ in
  let* nodes_ := PyStr.ints (PyStr.split "-" sid) in
  let* pn := OD._get_path_nodes path_ nodes_ in
  Ok (mk sid path_ gauge_ nodes_ pn (OD._create_links_list pn)).

(** [BasePath.calc_distance], for a stored path. *)
Definition calc_distance {L} `{LinkClass L} (network_links : LinkTable L)
    (p : t) : Q :=
  fold_left
    (fun dist od_link =>
       match gauge p with
       | Some g =>
           match network_links !! od_link with
           | Some lg =>
               match lg !! g with
               | Some l => dist + link_get_dist l
               | None => dist
               end
           | None => dist
           end
       | None => dist
       end)
    (links p) 0.

End Path.

(** ** [LinkTons]: the nested ledger of a link (tons.py)

    [self.tons[mode][category][id_od]], a dictionary of dictionaries of
    dictionaries.  Categories are integers, OD ids and modes are
    strings. *)

(** Python truth value of a key given as an optional argument. *)
Class Truthy (K : Type) : Type := truthy : K -> bool.
#[global] Instance Z_truthy : Truthy Z := fun z => negb (z =? 0)%Z.
#[global] Instance string_truthy : Truthy string :=
  fun s => negb (String.eqb s "").

Module LinkTons.

Abbreviation t := (gmap string (gmap Z (gmap string Q))).

(** [BaseTons.__init__] *)
Definition __init__ : t := <["original" := ∅]> (<["derived" := ∅]> ∅).

(** An optional argument of [get]: [None], one key, or a list of keys. *)
Inductive arg (K : Type) : Type :=
| ArgNone
| ArgOne (k : K)
| ArgList (l : list K).
Arguments ArgNone {K}.
Arguments ArgOne {K} k.
Arguments ArgList {K} l.

(** "convert no list parameters into lists": a true value that is not a
    list becomes a one-element list.  The result is [None] when the
    argument stays false, in which case [get] does not filter. *)
Definition as_filter {K} `{Truthy K} (a : arg K) : option (list K) :=
  match a with
  | ArgNone => None
  | ArgOne k => if truthy k then Some [k] else None
  | ArgList [] => None
  | ArgList l => Some l
  end.

(** [(not keys) or (k in keys)] *)
Definition selected {K} `{EqDecision K} (keys : option (list K)) (k : K)
  : bool :=
  match keys with
  | None => true
  | Some l => bool_decide (k ∈ l)
  end.

Definition sum_values (id_ods : option (list string))
    (categ_value : gmap string Q) (filtered_tons : Q) : Q :=
  map_fold (fun value_id_od value_tons acc =>
              if selected id_ods value_id_od then acc + value_tons else acc)
           filtered_tons categ_value.

Definition sum_categories (categories : option (list Z))
    (id_ods : option (list string)) (mode_value : gmap Z (gmap string Q))
    (filtered_tons : Q) : Q :=
  map_fold (fun categ_id categ_value acc =>
              if selected categories categ_id
              then sum_values id_ods categ_value acc else acc)
           filtered_tons mode_value.

(** [get(categories=None, id_ods=None, modes=None)] *)
Definition get (self : t) (categories : arg Z) (id_ods modes : arg string)
  : Q :=
  let categories := as_filter categories in
  let id_ods := as_filter id_ods in
  let modes := as_filter modes in
  map_fold (fun mode_id mode_value acc =>
              if selected modes mode_id
              then sum_categories categories id_ods mode_value acc else acc)
           0 self.

Definition get_original (self : t) (categories : arg Z)
    (id_ods : arg string) : Q :=
  get self categories id_ods (ArgOne "original"%string).

Definition get_derived (self : t) (categories : arg Z)
    (id_ods : arg string) : Q :=
  get self categories id_ods (ArgOne "derived"%string).

(** [get_by_category]: the tons of the categories 1 to 5, in order. *)
Definition get_by_category (self : t) : list Q :=
  (fun category => get self (ArgOne category) ArgNone ArgNone)
    <$> [1; 2; 3; 4; 5]%Z.

(** [self.tons[mode][category][id_od]], when all three keys exist. *)
Definition entry (self : t) (mode : string) (category : Z)
    (id_od : string) : option Q :=
  match self !! mode with
  | Some mv =>
      match mv !! category with
      | Some cv => cv !! id_od
      | None => None
      end
  | None => None
  end.

Definition getitem (self : t) (mode : string) (category : Z)
    (id_od : string) : result Q :=
  match entry self mode category id_od with
  | Some v => Ok v
  | None => Raise KeyError
  end.

(** [self.tons[mode][category][id_od] = v]; the two outer keys must
    exist. *)
Definition setitem (self : t) (mode : string) (category : Z)
    (id_od : string) (v : Q) : result t :=
  match self !! mode with
  | Some mv =>
      match mv !! category with
      | Some cv => Ok (<[mode := <[category := <[id_od := v]> cv]> mv]> self)
      | None => Raise KeyError
      end
  | None => Raise KeyError
  end.

(** [del(self.tons[mode][category][id_od])] *)
Definition delitem (self : t) (mode : string) (category : Z)
    (id_od : string) : result t :=
  match self !! mode with
  | Some mv =>
      match mv !! category with
      | Some cv =>
          match cv !! id_od with
          | Some _ =>
              Ok (<[mode := <[category := delete id_od cv]> mv]> self)
          | None => Raise KeyError
          end
      | None => Raise KeyError
      end
  | None => Raise KeyError
  end.

(** [_safe_dict_keys]: "create necessary dicts to ensure all keys can be
    called". *)
Definition _safe_dict_keys (category : Z) (id_od mode : string) (self : t)
  : t :=
  let self :=
    match self !! mode with
    | Some mv => if bool_decide (size mv = 0%nat)
                 then <[mode := ∅]> self else self
    | None => <[mode := ∅]> self
    end in
  let mv := default ∅ (self !! mode) in
  let mv :=
    match mv !! category with
    | Some _ => mv
    | None => <[category := ∅]> mv
    end in
  let cv := default ∅ (mv !! category) in
  let cv :=
    match cv !! id_od with
    | Some _ => cv
    | None => <[id_od := 0]> cv
    end in
  <[mode := <[category := cv]> mv]> self.

Definition _add_ton (ton : Q) (category : Z) (id_od mode : string)
    (self : t) : result t :=
  let self := _safe_dict_keys category id_od mode self in
  let* v := getitem self mode category id_od in
  setitem self mode category id_od (v + ton).

Definition _remove_all_ton (category : Z) (id_od mode : string) (self : t)
  : result t :=
  let self := _safe_dict_keys category id_od mode self in
  delitem self mode category id_od.

Definition _remove_ton (ton : Q) (category : Z) (id_od mode : string)
    (self : t) : result t :=
  let self := _safe_dict_keys category id_od mode self in
  let* existing_tons := getitem self mode category id_od in
  if Qltb (1 # 100) (Qabs (ton - existing_tons))
  then
    let* _ := py_assert (Qltb ton existing_tons)
                "Cannot remove more tons than existent ones." in
    let* v := getitem self mode category id_od in
    setitem self mode category id_od (v - ton)
  else _remove_all_ton category id_od mode self.

Definition add_original (ton : Q) (categories : Z) (id_ods : string)
  : t -> result t := _add_ton ton categories id_ods "original".

Definition add_derived (ton : Q) (categories : Z) (id_ods : string)
  : t -> result t := _add_ton ton categories id_ods "derived".


Definition remove_derived (ton : Q) (categories : Z) (id_ods : string)
  : t -> result t := _remove_ton ton categories id_ods "derived".


(** [_iter_values]: the stored values, mode by mode, category by
    category. *)
Definition _iter_values (self : t) : list Q :=
  mode ← (map_to_list self).*2;
  category ← (map_to_list mode).*2;
  (map_to_list category).*2.

(** [clean_insignificant_ton_values]: the loop assigns to its own
    variable [value].  The state of the loop is the ledger together
    with that variable. *)
Definition clean_step (significance : Q) (st : t * option Q) (v : Q)
  : t * option Q :=
  let '(self, _) := st in
  let value := v in
  let value := if Qltb value significance then 0 else value in
  (self, Some value).

Definition clean_insignificant_ton_values (significance : Q) (self : t)
  : t :=
  fst (fold_left (clean_step significance) (_iter_values self) (self, None)).

End LinkTons.

(** ** [BaseModalNetwork] (modal_networks.py) *)

(** A cost breakdown: the dictionary [RV] of the cost methods. *)
Abbreviation Breakdown := (gmap string Q).

(** [sum(RV.values())] *)
Definition sum_values (RV : Breakdown) : Q :=
  map_fold (fun _ v acc => acc + v) 0 RV.

(** The data members of a modal network.  OD pairs are objects of the OD
    heap, the network holds references to them: [od_pairs[id][category]].
    [wagons] and [locoms] are [None] until the builder has run (and stay
    so in a road network).  [costs_mob] and [costs_inf] are the two
    entries of the dictionary [costs].  The dictionary [paths] is not a
    member of the record: the methods that read it take it as an
    argument. *)
Record Network (L R : Type) : Type := mkNetwork {
  params : gmap string Q;
  od_pairs : gmap string (gmap Z nat);
  links : LinkTable L;
  costs_mob : option Breakdown;
  costs_inf : option Breakdown;
  wagons : option R;
  locoms : option R
}.
Arguments mkNetwork {L R}.
Arguments params {L R}.
Arguments od_pairs {L R}.
Arguments links {L R}.
Arguments costs_mob {L R}.
Arguments costs_inf {L R}.
Arguments wagons {L R}.
Arguments locoms {L R}.

Module BaseModalNetwork.
Section BaseModalNetwork.
Context {L R : Type} `{LinkClass L} `{RollingMaterialClass R}.

(** [BaseModalNetwork.__init__] *)
Definition __init__ : Network L R := mkNetwork ∅ ∅ ∅ None None None None.

(** [self.params[name].value] *)
Definition param (n : Network L R) (name : string) : result Q :=
  match params n !! name with
  | Some v => Ok v
  | None => Raise KeyError
  end.

(** [iter_od_pairs()] without a limit: the OD pairs of every id, category
    by category. *)
Definition iter_od_pairs (n : Network L R) : list nat :=
  od_pair ← (map_to_list (od_pairs n)).*2;
  (map_to_list od_pair).*2.

(** [iter_links()] without a limit, as the keys under which the links
    are stored. *)
Definition iter_link_keys (n : Network L R) : list (string * string) :=
  '(id_link, link) ← map_to_list (links n);
  (fun gauge => (id_link, gauge)) <$> (map_to_list link).*1.

Definition iter_links (n : Network L R) : list L :=
  link ← (map_to_list (links n)).*2;
  (map_to_list link).*2.


(** The link-based total of [get_total_ton_km]. *)
Definition total_tk_link (n : Network L R) : Q :=
  fold_left (fun acc link_gauge =>
               acc + link_get_ton link_gauge * link_get_dist link_gauge)
            (iter_links n) 0.

(** [od.get_ton() * od.get_dist()]: the distance of an OD pair is [None]
    until it is given or computed, and a float times [None] is a
    [TypeError]. *)
Definition od_ton_km (h : list OD.t) (od : nat) : result Q :=
  match h !! od with
  | Some o =>
      match OD.dist o with
      | Some d => Ok ((OD.original_ton o + OD.derived_ton o) * d)
      | None => Raise TypeError
      end
  | None => Raise DanglingReference
  end.

(** The OD-based total of [get_total_ton_km]. *)
Fixpoint sum_od_ton_km (h : list OD.t) (ods : list nat) (acc : Q)
  : result Q :=
  match ods with
  | [] => Ok acc
  | od :: rest =>
      let* tk := od_ton_km h od in
      sum_od_ton_km h rest (acc + tk)
  end.

Definition total_tk_od (n : Network L R) (h : list OD.t) : result Q :=
  sum_od_ton_km h (iter_od_pairs n) 0.

(** [get_total_ton_km] *)
Definition get_total_ton_km (n : Network L R) (h : list OD.t) : result Q :=
  let total_tk_link := total_tk_link n in
  let* total_tk_od := total_tk_od n h in
  let* ratio := py_div total_tk_link total_tk_od in
  let* _ := py_assert (Qltb (Qabs (ratio - 1)) (1 # 1000))
              "Link and OD based ways of total_ton_km calculation differ." in
  Ok total_tk_link.

(** [get_total_tons] *)
Fixpoint sum_od_tons (h : list OD.t) (ods : list nat) (acc : Q)
  : result Q :=
  match ods with
  | [] => Ok acc
  | od :: rest =>
      match h !! od with
      | Some o =>
          sum_od_tons h rest (acc + (OD.original_ton o + OD.derived_ton o))
      | None => Raise DanglingReference
      end
  end.

Definition get_total_tons (n : Network L R) (h : list OD.t) : result Q :=
  sum_od_tons h (iter_od_pairs n) 0.

(** [iter_od_pairs(limit)] and [iter_links(limit)]: the test
    [if limit and counter >= limit] is false for [None] and for 0; the
    [break] leaves the inner loop only, the counter is kept across the
    outer loop. *)
Definition limit_reached (limit : option Z) (counter : Z) : bool :=
  match limit with
  | Some k => negb (k =? 0)%Z && (k <=? counter)%Z
  | None => false
  end.

Fixpoint iter_inner {A} (limit : option Z) (values : list A) (counter : Z)
  : Z * list A :=
  match values with
  | [] => (counter, [])
  | v :: rest =>
      if limit_reached limit counter then (counter, [])
      else
        let '(counter, yielded) := iter_inner limit rest (counter + 1)%Z in
        (counter, v :: yielded)
  end.

Fixpoint iter_outer {A} (limit : option Z) (groups : list (list A))
    (counter : Z) : list A :=
  match groups with
  | [] => []
  | values :: rest =>
      let '(counter, yielded) := iter_inner limit values counter in
      yielded ++ iter_outer limit rest counter
  end.

Definition iter_od_pairs_limit (n : Network L R) (limit : option Z)
  : list nat :=
  iter_outer limit
    ((fun od_pair : gmap Z nat => (map_to_list od_pair).*2)
       <$> (map_to_list (od_pairs n)).*2) 0.

Definition iter_links_limit (n : Network L R) (limit : option Z) : list L :=
  iter_outer limit
    ((fun link : gmap string L => (map_to_list link).*2)
       <$> (map_to_list (links n)).*2) 0.

(** [get_path(od)] and [get_path_distance(od)].  The dictionary [paths]
    of the network is handed to the two methods that read it. *)
Definition get_path (paths : gmap string Path.t) (o : OD.t)
  : result Path.t :=
  match paths !! OD.id o with
  | Some p => Ok p
  | None => Raise KeyError
  end.

Definition get_path_distance (n : Network L R) (paths : gmap string Path.t)
    (o : OD.t) : result Q :=
  if OD.is_intrazone o then Ok 0
  else
    let* p := get_path paths o in
    Ok (Path.calc_distance (links n) p).

(** The builder's [create_od_pair(network, id_od, category_od)], which
    creates an OD pair and stores it in the network. *)
Variable create_od_pair :
  Network L R -> string -> Z -> Heap.M OD.t (Network L R).

(** [_create_od_pair(self, id_od, category_od)], applied to the list of
    the positional arguments that follow [id_od].  Both parameters are
    required: a call with another number of arguments is a
    [TypeError]. *)
Definition _create_od_pair (n : Network L R) (id_od : string)
    (args : list Z) : Heap.M OD.t (Network L R) :=
  match args with
  | [category_od] => create_od_pair n id_od category_od
  | _ => Heap.raise TypeError
  end.

(** [get_od(id_od, category_od)] *)
Definition get_od (n : Network L R) (id_od : string) (category_od : Z)
  : Heap.M OD.t (Network L R * nat) :=
  (n <- match od_pairs n !! id_od with
        | None => _create_od_pair n id_od [category_od]
        | Some _ => Heap.ret n
        end ;;
   od_pair <- Heap.lift match od_pairs n !! id_od with
                        | Some od_pair => Ok od_pair
                        | None => Raise KeyError
                        end ;;
   n <- match od_pair !! category_od with
        | None => _create_od_pair n id_od []
        | Some _ => Heap.ret n
        end ;;
   od <- Heap.lift match od_pairs n !! id_od with
                   | Some od_pair =>
                       match od_pair !! category_od with
                       | Some od => Ok od
                       | None => Raise KeyError
                       end
                   | None => Raise KeyError
                   end ;;
   Heap.ret (n, od))%heap.

End BaseModalNetwork.
End BaseModalNetwork.

(** ** [BaseNetworkCost], [RailwayNetworkCost], [RoadwayNetworkCost]
       (cost.py)

    A cost object keeps the network it was built for and the total ton-km
    that the network reported at construction. *)

Record NetworkCost (L R : Type) : Type := mkNetworkCost {
  rn : Network L R;
  total_ton_km : Q
}.
Arguments mkNetworkCost {L R}.
Arguments rn {L R}.
Arguments total_ton_km {L R}.

Module BaseNetworkCost.
Section BaseNetworkCost.
Context {L R : Type} `{LinkClass L} `{RollingMaterialClass R}.

(** [BaseNetworkCost.__init__(rn)] *)
Definition __init__ (n : Network L R) (h : list OD.t)
  : result (NetworkCost L R) :=
  let* t := BaseModalNetwork.get_total_ton_km n h in
  Ok (mkNetworkCost n t).

(** [self.rn.wagons] and [self.rn.locoms]: a method call on [None] is an
    [AttributeError]. *)
Definition rn_wagons (c : NetworkCost L R) : result R :=
  match wagons (rn c) with
  | Some w => Ok w
  | None => Raise AttributeError
  end.

Definition rn_locoms (c : NetworkCost L R) : result R :=
  match locoms (rn c) with
  | Some l => Ok l
  | None => Raise AttributeError
  end.

Definition param (c : NetworkCost L R) (name : string) : result Q :=
  BaseModalNetwork.param (rn c) name.

End BaseNetworkCost.
End BaseNetworkCost.

Module RailwayNetworkCost.
Section RailwayNetworkCost.
Context {L R : Type} `{LinkClass L} `{RollingMaterialClass R}.

(** Float power, [x ** y] and [pow(x, y)]. *)
Variable py_pow : Q -> Q -> result Q.

Local Abbreviation param := BaseNetworkCost.param.
Local Abbreviation rn_wagons := BaseNetworkCost.rn_wagons.
Local Abbreviation rn_locoms := BaseNetworkCost.rn_locoms.

(** *** Mobility *)

Definition _cost_eac_ton_km (c : NetworkCost L R) (eac units : Q)
  : result Q :=
  let year_eac := eac * units in
  if Qltb (1 # 10) (total_ton_km c)
  then py_div year_eac (total_ton_km c)
  else Ok 0.

Definition _cost_eac_wagon (c : NetworkCost L R) : result Q :=
  let* wagon_eac := param c "wagon_eac" in
  let* w := rn_wagons c in
  let num_wagons := rm_get_units_needed_by_time w in
  _cost_eac_ton_km c wagon_eac num_wagons.

Definition _cost_eac_locom (c : NetworkCost L R) : result Q :=
  let* locom_eac := param c "locomotive_eac" in
  let* l := rn_locoms c in
  let num_locoms := rm_get_units_needed_by_time l in
  _cost_eac_ton_km c locom_eac num_locoms.

Definition _cost_fuel_and_lub (c : NetworkCost L R) : result Q :=
  let* fuel_by_km := param c "fuel_cost_by_km" in
  let* l := rn_locoms c in
  let loc_average_haul := rm_get_average_haul l in
  let num_locoms := rm_get_units_needed_by_time l in
  let* lub_fuel_ratio := param c "lubricants_fuel_ratio" in
  let* fuel_ton_km :=
    if Qltb (1 # 10) (total_ton_km c)
    then py_div (fuel_by_km * loc_average_haul * num_locoms)
                (total_ton_km c)
    else Ok 0 in
  let lub_ton_km := fuel_ton_km * lub_fuel_ratio in
  Ok (fuel_ton_km + lub_ton_km).

Definition _cost_mobility_maintenance (c : NetworkCost L R) : result Q :=
  if Qltb (1 # 10) (total_ton_km c)
  then
    let* by_locomotive := param c "maintenance_by_locomotive" in
    let* l := rn_locoms c in
    let* locom_maintenance :=
      py_div (by_locomotive * rm_get_units_needed_by_time l)
             (total_ton_km c) in
    let* by_wagon := param c "maintenance_by_wagon" in
    let* w := rn_wagons c in
    let* wagon_maintenance :=
      py_div (by_wagon * rm_get_units_needed_by_time w)
             (total_ton_km c) in
    Ok (locom_maintenance + wagon_maintenance)
  else Ok (0 + 0).

Definition _cost_manpower (c : NetworkCost L R) : result Q :=
  let* cost_by_hour := param c "manpower_cost_by_loc_hour" in
  let* l := rn_locoms c in
  let operation_hours := rm_get_operation_time l in
  if Qltb (1 # 10) (total_ton_km c)
  then py_div (cost_by_hour * operation_hours) (total_ton_km c)
  else Ok 0.

(** [cost_mobility] *)
Definition cost_mobility (c : NetworkCost L R) : result Breakdown :=
  let RV : Breakdown := ∅ in
  let* v := _cost_eac_wagon c in
  let RV := <["eac_wagon" := v]> RV in
  let* v := _cost_eac_locom c in
  let RV := <["eac_locom" := v]> RV in
  let* v := _cost_fuel_and_lub c in
  let RV := <["fuel_and_lub" := v]> RV in
  let* v := _cost_mobility_maintenance c in
  let RV := <["maintenance" := v]> RV in
  let* v := _cost_manpower c in
  let RV := <["manpower" := v]> RV in
  Ok (<["total_mobility" := sum_values RV]> RV).

(** *** Infrastructure *)

Definition _capital_recovery_factor (int_rate use_life : Q) : result Q :=
  let* p := py_pow (1 + int_rate) use_life in
  let a := int_rate * p in
  let* p := py_pow (1 + int_rate) use_life in
  let b := p - 1 in
  py_div a b.

Definition _is_main_track (c : NetworkCost L R) (gross_tk dist : Q)
  : result bool :=
  let* net_to_gross := param c "net_to_gross_factor" in
  let* main_min_density := param c "main_min_density" in
  let* net_tk := py_div gross_tk net_to_gross in
  let* density := py_div net_tk dist in
  Ok (Qltb main_min_density density).

Definition _cost_eac_track (c : NetworkCost L R) (gross_tk dist : Q)
  : result Q :=
  let* main := _is_main_track c gross_tk dist in
  if main : bool
  then
    let* a_eac := param c "coef_a_track_cost" in
    let* b_eac := param c "coef_b_track_cost" in
    let* use_life := param c "useful_life_track" in
    let* max_gross_tk := param c "gross_tk_in_hq_track_lifetime" in
    let* int_rate := param c "interest_rate" in
    let* max_cost_track := param c "high_quality_track_price" in
    let* gross_tk_in_use_life := py_div (use_life * gross_tk) dist in
    let* '(cost_track, use_life) :=
      if Qltb gross_tk_in_use_life max_gross_tk
      then Ok (a_eac + b_eac * gross_tk_in_use_life, use_life)
      else
        let* density := py_div gross_tk dist in
        let* life := py_div max_gross_tk density in
        Ok (max_cost_track, life) in
    let* crf := _capital_recovery_factor int_rate use_life in
    Ok (cost_track * crf * dist)
  else Ok 0.

Definition _calc_number_of_detours (c : NetworkCost L R)
    (gross_tk dist : Q) : result Q :=
  let* max_turnout_distance := param c "turnout_freq" in
  let* max_turnout_density := param c "turnout_freq_max_density" in
  let t_distance := max_turnout_distance in
  let* density := py_div gross_tk dist in
  let* t_distance :=
    if negb (Qltb density max_turnout_density)
    then
      let* r := py_div density max_turnout_density in
      py_div max_turnout_distance r
    else Ok t_distance in
  py_div dist t_distance.

Definition _cost_detour (c : NetworkCost L R) (gross_tk dist : Q)
  : result Q :=
  let* num_detours := _calc_number_of_detours c gross_tk dist in
  let* wages_by_detour := param c "yearly_wages_by_turnout" in
  let total_wages_cost := num_detours * wages_by_detour in
  let* density := py_div gross_tk dist in
  let* eac := _cost_eac_track c density 1 in
  let total_eac_cost := num_detours * eac in
  Ok (total_wages_cost + total_eac_cost).

Definition _cost_infrast_maint (c : NetworkCost L R) (gross_tk dist : Q)
  : result Q :=
  let* a_track := param c "coef_a_track_maint_cost" in
  let* b_track := param c "coef_b_track_maint_cost" in
  let* density := py_div gross_tk dist in
  let* p := py_pow density a_track in
  let track_maint := p * b_track * gross_tk in
  let* a_notrack := param c "coef_a_notrack_maint_cost" in
  let* b_notrack := param c "coef_b_notrack_maint_cost" in
  let* density := py_div gross_tk dist in
  let* p := py_pow density a_notrack in
  let no_track_maint := p * b_notrack * gross_tk in
  Ok (track_maint + no_track_maint).

(** [RV[key] += v] *)
Definition rv_add (RV : Breakdown) (key : string) (v : Q) : Breakdown :=
  <[key := default 0 (RV !! key) + v]> RV.

(** The body of the loop over the links of [cost_infrast]: the state is
    the breakdown and the link table, whose links receive their costs. *)
Definition cost_infrast_link (c : NetworkCost L R)
    (wagon_capacity wagon_weight locomotive_capacity locomotive_weight : Q)
    (st : Breakdown * LinkTable L) (key : string * string)
  : result (Breakdown * LinkTable L) :=
  let '(RV, table) := st in
  match table !! key.1 with
  | Some by_gauge =>
      match by_gauge !! key.2 with
      | Some link =>
          if Qltb 0 (link_get_ton link)
          then
            let* gross_tk :=
              link_get_gross_ton_km wagon_capacity wagon_weight
                locomotive_capacity locomotive_weight link in
            let* eac_detour := _cost_detour c gross_tk (link_get_dist link) in
            let* eac_track :=
              _cost_eac_track c gross_tk (link_get_dist link) in
            let* maintenance :=
              _cost_infrast_maint c gross_tk (link_get_dist link) in
            let RV := rv_add RV "eac_detour" eac_detour in
            let RV := rv_add RV "eac_track" eac_track in
            let RV := rv_add RV "maintenance" maintenance in
            let link :=
              link_set_maintenance maintenance
                (link_set_eac_track eac_track
                   (link_set_eac_detour eac_detour link)) in
            Ok (RV, <[key.1 := <[key.2 := link]> by_gauge]> table)
          else Ok (RV, table)
      | None => Raise KeyError
      end
  | None => Raise KeyError
  end.

Fixpoint cost_infrast_links (c : NetworkCost L R) (wc ww lc lw : Q)
    (keys : list (string * string)) (st : Breakdown * LinkTable L)
  : result (Breakdown * LinkTable L) :=
  match keys with
  | [] => Ok st
  | key :: rest =>
      let* st := cost_infrast_link c wc ww lc lw st key in
      cost_infrast_links c wc ww lc lw rest st
  end.

(** "divide all costs to express them in terms of ton-km" *)
Definition per_ton_km (c : NetworkCost L R) (v : Q) : Q :=
  if Qltb (1 # 10) (total_ton_km c) then v / total_ton_km c else 0.

(** [cost_infrast]: the breakdown, and the links with their costs. *)
Definition cost_infrast (c : NetworkCost L R)
  : result (Breakdown * LinkTable L) :=
  let RV : Breakdown :=
    <["maintenance" := 0]> (<["eac_track" := 0]> (<["eac_detour" := 0]> ∅)) in
  let* wagon_capacity := param c "wagon_capacity" in
  let* wagon_weight := param c "wagon_weight" in
  let* locomotive_capacity := param c "locomotive_capacity" in
  let* locomotive_weight := param c "locomotive_weight" in
  let* '(RV, table) :=
    cost_infrast_links c wagon_capacity wagon_weight locomotive_capacity
      locomotive_weight (BaseModalNetwork.iter_link_keys (rn c))
      (RV, links (rn c)) in
  let RV := per_ton_km c <$> RV in
  Ok (<["total_infrastructure" := sum_values RV]> RV, table).

End RailwayNetworkCost.
End RailwayNetworkCost.

Module RoadwayNetworkCost.
Section RoadwayNetworkCost.
Context {L R : Type} `{LinkClass L} `{RollingMaterialClass R}.

Variable py_pow : Q -> Q -> result Q.

Local Abbreviation param := BaseNetworkCost.param.

(** [_cost_mobility]: asks the network for its total ton-km again. *)
Definition _cost_mobility (c : NetworkCost L R) (h : list OD.t)
  : result Q :=
  let* mobility_cost_tk := param c "mobility_cost_tk" in
  let* t := BaseModalNetwork.get_total_ton_km (rn c) h in
  let mobility_cost := t * mobility_cost_tk in
  py_div mobility_cost (total_ton_km c).

(** [cost_mobility] *)
Definition cost_mobility (c : NetworkCost L R) (h : list OD.t)
  : result Breakdown :=
  let RV : Breakdown := ∅ in
  let* v := _cost_mobility c h in
  Ok (<["total_mobility" := v]> RV).

Definition _cost_eac_track (c : NetworkCost L R) (ton dist : Q)
  : result Q :=
  let* a_eac := param c "coef_a_infrast_cost" in
  let* b_eac := param c "coef_b_infrast_cost" in
  let* p := py_pow ton a_eac in
  let eac := b_eac * p in
  Ok (eac * dist).

Definition cost_infrast_link (c : NetworkCost L R)
    (st : Breakdown * LinkTable L) (key : string * string)
  : result (Breakdown * LinkTable L) :=
  let '(RV, table) := st in
  match table !! key.1 with
  | Some by_gauge =>
      match by_gauge !! key.2 with
      | Some link =>
          if Qltb 0 (link_get_ton link)
          then
            let* eac_track :=
              _cost_eac_track c (link_get_ton link) (link_get_dist link) in
            let RV := RailwayNetworkCost.rv_add RV "eac_track" eac_track in
            let link := link_set_eac_track eac_track link in
            Ok (RV, <[key.1 := <[key.2 := link]> by_gauge]> table)
          else Ok (RV, table)
      | None => Raise KeyError
      end
  | None => Raise KeyError
  end.

Fixpoint cost_infrast_links (c : NetworkCost L R)
    (keys : list (string * string)) (st : Breakdown * LinkTable L)
  : result (Breakdown * LinkTable L) :=
  match keys with
  | [] => Ok st
  | key :: rest =>
      let* st := cost_infrast_link c st key in
      cost_infrast_links c rest st
  end.

(** [cost_infrast]: the division by the total ton-km is not guarded. *)
Definition cost_infrast (c : NetworkCost L R)
  : result (Breakdown * LinkTable L) :=
  let RV : Breakdown := <["eac_track" := 0]> ∅ in
  let* '(RV, table) :=
    cost_infrast_links c (BaseModalNetwork.iter_link_keys (rn c))
      (RV, links (rn c)) in
  let* eac_track := py_div (default 0 (RV !! "eac_track")) (total_ton_km c) in
  let RV := <["eac_track" := eac_track]> RV in
  Ok (<["total_infrastructure" := sum_values RV]> RV, table).

End RoadwayNetworkCost.
End RoadwayNetworkCost.

(** ** [RailwayNetwork]: the regrouping pass (modal_networks.py) *)

Module RailwayNetwork.
Section RailwayNetwork.
Context {L R : Type} `{LinkClass L} `{RollingMaterialClass R}.

Local Abbreviation param := BaseModalNetwork.param.

(** [_calc_mobility_cost]: a cost object is built for the network as it
    is now, and asked for the mobility costs.  modal_networks.py hands the
    constructor the network's [params], [locoms], [wagons] and [links];
    the constructor of cost.py takes the network and reads these four
    members (and the total ton-km) from it.  The model follows cost.py. *)
Definition _calc_mobility_cost (n : Network L R) (h : list OD.t)
  : result Breakdown :=
  let* network_cost := BaseNetworkCost.__init__ n h in
  RailwayNetworkCost.cost_mobility network_cost.



Definition set_locoms (n : Network L R) (r : R) : Network L R :=
  mkNetwork (params n) (od_pairs n) (links n) (costs_mob n) (costs_inf n)
    (wagons n) (Some r).

Definition set_wagons (n : Network L R) (r : R) : Network L R :=
  mkNetwork (params n) (od_pairs n) (links n) (costs_mob n) (costs_inf n)
    (Some r) (locoms n).

Definition set_costs_mob (n : Network L R) (RV : Breakdown)
  : Network L R :=
  mkNetwork (params n) (od_pairs n) (links n) (Some RV) (costs_inf n)
    (wagons n) (locoms n).

Definition get_locoms (n : Network L R) : result R :=
  match locoms n with
  | Some r => Ok r
  | None => Raise AttributeError
  end.

Definition get_wagons (n : Network L R) : result R :=
  match wagons n with
  | Some r => Ok r
  | None => Raise AttributeError
  end.







(** [has_railway_path(od)]: ["-" in path] is a [TypeError] when the
    stored path is [None]. *)
Definition has_railway_path (paths : gmap string Path.t) (o : OD.t)
  : result bool :=
  match paths !! OD.id o with
  | None => Ok false
  | Some p =>
      let path := Path.path p in
      let gauge := Path.gauge p in
      let has_path_and_gauge := OD.truthy_str path && OD.truthy_str gauge in
      let* has_links :=
        match path with
        | Some s => Ok (PyStr.contains "-" s)
        | None => Raise TypeError
        end in
      Ok (has_path_and_gauge && has_links)
  end.

(** The two collaborator methods of the simple mobility calculation:
    [rolling_material.add_freight_service(ton, dist)], which returns the
    idle capacity left, and [link.add_idle_cap(idle_capacity)].  Both
    update their object and either may raise. *)
Variable rm_add_freight_service : Q -> option Q -> R -> result (R * Q).
Variable link_add_idle_cap : Q -> L -> result L.

Definition set_links (n : Network L R) (table : LinkTable L) : Network L R :=
  mkNetwork (params n) (od_pairs n) table (costs_mob n) (costs_inf n)
    (wagons n) (locoms n).

(** The [try] block of [_calculate_mobility_od]:
    [self.links[link][od.gauge].add_idle_cap(idle_capacity_l)]; [None]
    when it raises (a link that raises is left as it was). *)
Definition try_add_idle_cap (gauge : option string) (idle_capacity_l : Q)
    (link : string) (table : LinkTable L) : option (LinkTable L) :=
  match gauge with
  | Some g =>
      match table !! link with
      | Some by_gauge =>
          match by_gauge !! g with
          | Some l =>
              match link_add_idle_cap idle_capacity_l l with
              | Ok l' => Some (<[link := <[g := l']> by_gauge]> table)
              | Raise _ => None
              end
          | None => None
          end
      | None => None
      end
  | None => None
  end.

(** The loop over [od.links] of [_calculate_mobility_od], with its
    [exception_counter] and [MAX_EXCEPTIONS = 50]. *)
Fixpoint add_idle_cap_along (gauge : option string) (idle_capacity_l : Q)
    (od_links : list string) (exception_counter : nat)
    (table : LinkTable L) : result (LinkTable L) :=
  match od_links with
  | [] => Ok table
  | link :: rest =>
      let* _ := py_assert (exception_counter <? 50)%nat
                  "Too many error paths." in
      match try_add_idle_cap gauge idle_capacity_l link table with
      | Some table =>
          add_idle_cap_along gauge idle_capacity_l rest exception_counter
            table
      | None =>
          add_idle_cap_along gauge idle_capacity_l rest
            (S exception_counter) table
      end
  end.

(** [_calculate_mobility_od(od)] *)
Definition _calculate_mobility_od (h : list OD.t) (n : Network L R)
    (od : nat) : result (Network L R) :=
  match h !! od with
  | Some o =>
      let ton := OD.original_ton o + OD.derived_ton o in
      let* wagons := get_wagons n in
      let* '(wagons, _) := rm_add_freight_service ton (OD.dist o) wagons in
      let n := set_wagons n wagons in
      let* locoms := get_locoms n in
      let* '(locoms, idle_capacity_l) :=
        rm_add_freight_service ton (OD.dist o) locoms in
      let n := set_locoms n locoms in
      let* table :=
        add_idle_cap_along (OD.gauge o) idle_capacity_l (OD.links o) 0
          (links n) in
      Ok (set_links n table)
  | None => Raise DanglingReference
  end.

Fixpoint calculate_mobility_ods (h : list OD.t) (ods : list nat)
    (n : Network L R) : result (Network L R) :=
  match ods with
  | [] => Ok n
  | od :: rest =>
      let* n := _calculate_mobility_od h n od in
      calculate_mobility_ods h rest n
  end.

(** [calc_simple_mobility_cost] *)
Definition calc_simple_mobility_cost (n : Network L R) (h : list OD.t)
  : result (Network L R) :=
  let* n := calculate_mobility_ods h (BaseModalNetwork.iter_od_pairs n) n in
  let* RV := _calc_mobility_cost n h in
  Ok (set_costs_mob n RV).

End RailwayNetwork.
End RailwayNetwork.

(** ** Programs and sample collaborators

    The scenario programs below are run by the theorems.  The sample
    link, rolling-material, builder and power function stand for the
    collaborators whose modules are not part of the costing engine; they
    are used to run the engine on concrete networks.  Every general
    theorem below is stated for an arbitrary implementation of the
    interfaces. *)

(** [A = OdTons(1000)], [B = OdTons(0)], [A.derive(B, 0.3)], then
    [A.get("original")] and [B.get("derived")]. *)
Definition derivation_scenario : OdTons.M (Q * Q * Q * Q) :=
  (A <- OdTons.__init__ 1000 None ;;
   B <- OdTons.__init__ 0 None ;;
   r <- OdTons.derive A B (3 # 10) true ;;
   a_original <- OdTons.get A (Some "original"%string) ;;
   b_derived <- OdTons.get B (Some "derived"%string) ;;
   Heap.ret (r.1, r.2, a_original, b_derived))%heap.

(** The object built by [OD("5-5", ton=500)]. *)
Definition od_5_5 : OD.t :=
  OD.mk "5-5" [5%Z; 5%Z] None None None None [] 500 0 None None None None.

(** A link ledger with 5 derived tons and 0.005 original tons for OD
    "1-3" of category 1. *)
Definition ledger_5_and_small : LinkTons.t :=
  <["original"%string := <[1%Z := <["1-3"%string := 1 # 200]> ∅]> ∅]>
    (<["derived"%string := <[1%Z := <["1-3"%string := 5]> ∅]> ∅]> ∅).

(** Modelled from the spec: a link class with the attributes of the data
    model (distance, tonnage, idle capacity, accrued infrastructure
    costs); the module that defines the link class is not among the
    sources.  Regrouping takes the regrouped capacity out of the idle
    capacity and reverting puts it back; gross ton-km add the tare
    weights per unit of capacity. *)
Record SampleLink : Type := mkSampleLink {
  sl_dist : Q;
  sl_ton : Q;
  sl_idle_capacity : Qc;
  sl_eac_detour : Q;
  sl_eac_track : Q;
  sl_maintenance : Q
}.

#[global] Instance SampleLink_class : LinkClass SampleLink := {|
  link_get_ton := sl_ton;
  link_get_dist := sl_dist;
  link_idle_capacity l := this (sl_idle_capacity l);
  link_regroup x l :=
    mkSampleLink (sl_dist l) (sl_ton l) (sl_idle_capacity l - Q2Qc x)%Qc
      (sl_eac_detour l) (sl_eac_track l) (sl_maintenance l);
  link_revert_regroup x l :=
    mkSampleLink (sl_dist l) (sl_ton l) (sl_idle_capacity l + Q2Qc x)%Qc
      (sl_eac_detour l) (sl_eac_track l) (sl_maintenance l);
  link_get_gross_ton_km wc ww lc lw l :=
    let* w := py_div ww wc in
    let* lo := py_div lw lc in
    Ok (sl_ton l * sl_dist l * (1 + w + lo));
  link_set_eac_detour v l :=
    mkSampleLink (sl_dist l) (sl_ton l) (sl_idle_capacity l)
      v (sl_eac_track l) (sl_maintenance l);
  link_set_eac_track v l :=
    mkSampleLink (sl_dist l) (sl_ton l) (sl_idle_capacity l)
      (sl_eac_detour l) v (sl_maintenance l);
  link_set_maintenance v l :=
    mkSampleLink (sl_dist l) (sl_ton l) (sl_idle_capacity l)
      (sl_eac_detour l) (sl_eac_track l) v
|}.

(** Modelled from the spec: a rolling-material class with running time,
    idle time, speed and availability ("fleet size needed = total time
    required / availability per unit"); the module that defines the class
    is not among the sources.  Regrouping moves running time out and
    reverting moves it back; regroup time is idle time. *)
Record SampleRollingMaterial : Type := mkSampleRollingMaterial {
  srm_running : Qc;
  srm_idle : Qc;
  srm_speed : Q;
  srm_availability : Q;
  srm_regroup_time : Q
}.

#[global] Instance SampleRollingMaterial_class
  : RollingMaterialClass SampleRollingMaterial := {|
  rm_get_units_needed_by_time r :=
    (this (srm_running r) + this (srm_idle r)) / srm_availability r;
  rm_get_average_haul r := this (srm_running r) * srm_speed r;
  rm_get_operation_time r := this (srm_running r) + this (srm_idle r);
  rm_regroup units dist r :=
    mkSampleRollingMaterial
      (srm_running r - Q2Qc (units * dist / srm_speed r))%Qc
      (srm_idle r) (srm_speed r) (srm_availability r) (srm_regroup_time r);
  rm_revert_regroup units dist r :=
    mkSampleRollingMaterial
      (srm_running r + Q2Qc (units * dist / srm_speed r))%Qc
      (srm_idle r) (srm_speed r) (srm_availability r) (srm_regroup_time r);
  rm_add_regroup_time w r :=
    mkSampleRollingMaterial (srm_running r)
      (srm_idle r + Q2Qc (w * srm_regroup_time r))%Qc
      (srm_speed r) (srm_availability r) (srm_regroup_time r);
  rm_subtract_regroup_time w r :=
    mkSampleRollingMaterial (srm_running r)
      (srm_idle r - Q2Qc (w * srm_regroup_time r))%Qc
      (srm_speed r) (srm_availability r) (srm_regroup_time r)
|}.

(** Modelled from the spec: the builder's [create_od_pair] ("created on
    first demand for an (id, category) pair"); the builder module is not
    among the sources.  The new OD pair carries no tons and is stored
    under its id and category. *)
Definition sample_create_od_pair
    (n : Network SampleLink SampleRollingMaterial) (id_od : string)
    (category_od : Z)
  : Heap.M OD.t (Network SampleLink SampleRollingMaterial) :=
  (od <- OD.__init__ id_od 0 None None None (Some category_od) ;;
   Heap.ret
     (mkNetwork (params n)
        (<[id_od := <[category_od := od]> (default ∅ (od_pairs n !! id_od))]>
           (od_pairs n))
        (links n) (costs_mob n) (costs_inf n) (wagons n) (locoms n)))%heap.

(** Float power for whole exponents, enough for the examples. *)
Definition sample_pow (x y : Q) : result Q :=
  let e := Qred y in
  if negb (Pos.eqb (Qden e) 1) then Raise ValueError
  else if Qeq_bool x 0 && (Qnum e <? 0)%Z then Raise ZeroDivisionError
  else Ok (Qpower x (Qnum e)).

(** A rail network with one link of 100 km that carries the 1000 tons of
    one OD pair. *)
Definition sample_od : OD.t :=
  OD.mk "1-3" [1%Z; 3%Z] (Some "1-3"%string) (Some [1%Z; 3%Z])
    (Some "ancha"%string) (Some 100) ["1-3"%string] 1000 0 (Some 1%Z)
    None None None.

Definition sample_heap : list OD.t := [sample_od].

Definition sample_params : gmap string Q :=
  list_to_map
    [("wagon_eac"%string, 6000); ("locomotive_eac"%string, 150000);
     ("fuel_cost_by_km"%string, 2); ("lubricants_fuel_ratio"%string, 1 # 15);
     ("maintenance_by_locomotive"%string, 100000);
     ("maintenance_by_wagon"%string, 2500);
     ("manpower_cost_by_loc_hour"%string, 30);
     ("locomotive_capacity"%string, 2400); ("wagon_capacity"%string, 60)].

Definition sample_rail_network : Network SampleLink SampleRollingMaterial :=
  mkNetwork sample_params
    (<["1-3"%string := <[1%Z := 0%nat]> ∅]> ∅)
    (<["1-3"%string :=
         <["ancha"%string := mkSampleLink 100 1000 (Q2Qc 5000) 0 0 0]> ∅]> ∅)
    None None
    (Some (mkSampleRollingMaterial (Q2Qc 4000) (Q2Qc 2000) 40 8000 (1 # 2)))
    (Some (mkSampleRollingMaterial (Q2Qc 300) (Q2Qc 100) 40 6500 0)).


(** A road network whose only link and only OD pair carry 0.05 tons over
    1 km: its total ton-km is 0.05. *)
Definition near_zero_od : OD.t :=
  OD.mk "1-3" [1%Z; 3%Z] (Some "1-3"%string) (Some [1%Z; 3%Z])
    (Some "road"%string) (Some 1) ["1-3"%string] (1 # 20) 0 (Some 1%Z)
    None None None.

Definition near_zero_heap : list OD.t := [near_zero_od].

Definition near_zero_road_network
  : Network SampleLink SampleRollingMaterial :=
  mkNetwork
    (list_to_map
       [("mobility_cost_tk"%string, 3); ("coef_a_infrast_cost"%string, 1);
        ("coef_b_infrast_cost"%string, 2)])
    (<["1-3"%string := <[1%Z := 0%nat]> ∅]> ∅)
    (<["1-3"%string :=
         <["road"%string := mkSampleLink 1 (1 # 20) (Q2Qc 0) 0 0 0]> ∅]> ∅)
    None None None None.



(** A cost object with the two turnout parameters: a turnout every 50 km
    up to a density of 1000000 gross tons. *)
Definition sample_turnout_cost
  : NetworkCost SampleLink SampleRollingMaterial :=
  mkNetworkCost
    (mkNetwork
       (list_to_map [("turnout_freq"%string, 50);
                     ("turnout_freq_max_density"%string, 1000000)])
       ∅ ∅ None None None None)
    100000.

(** The stored path of [sample_od]. *)
Definition sample_path : Path.t :=
  Path.mk "1-3" (Some "1-3"%string) (Some "ancha"%string) [1%Z; 3%Z]
    (Some [1%Z; 3%Z]) ["1-3"%string].

(** ** Notions used by the statements *)

(** The tons stored in a slot of the ledger, 0 when the slot is absent. *)
Definition slot_tons (t : LinkTons.t) (m : string) (c : Z) (i : string) : Q :=
  default 0 (LinkTons.entry t m c i).

(** Strings of decimal digits: what [str] gives for a node number. *)
Definition is_digit (c : ascii) : bool :=
  let n := nat_of_ascii c in (Nat.leb 48 n && Nat.leb n 57)%bool.

Fixpoint digits (s : string) : bool :=
  match s with
  | EmptyString => true
  | String c rest => is_digit c && digits rest
  end.

(** The canonical id of the OD pair between two nodes. *)
Definition canonical_id (a b : Z) : string :=
  (PyStr.str (Z.min a b) ++ "-" ++ PyStr.str (Z.max a b))%string.

(** The id of the link between two consecutive path nodes. *)
Definition link_id (node_a node_b : Z) : string :=
  (if (node_a <? node_b)%Z
   then PyStr.str node_a ++ "-" ++ PyStr.str node_b
   else PyStr.str node_b ++ "-" ++ PyStr.str node_a)%string.

(** The tons of one mode, under the filters of [get]. *)
Definition mode_tons (cats : option (list Z)) (ids : option (list string))
    (t : LinkTons.t) (m : string) : Q :=
  match t !! m with
  | Some mv => LinkTons.sum_categories cats ids mv 0
  | None => 0
  end.

(** The tons of one category within a mode. *)
Definition cat_tons (mv : gmap Z (gmap string Q)) (k : Z) : Q :=
  match mv !! k with
  | Some cv => LinkTons.sum_values None cv 0
  | None => 0
  end.



(** * Properties *)

(** ** Comparisons and division of rationals *)

Lemma Qltb_lt x y : Qltb x y = true <-> x < y.
Proof.
  unfold Qltb. rewrite negb_true_iff. split.
  - intros H. apply Qnot_le_lt. intros Hle.
    apply Qle_bool_iff in Hle. congruence.
  - intros H. destruct (Qle_bool y x) eqn:E; [|reflexivity].
    apply Qle_bool_iff in E. lra.
Qed.

Lemma Qltb_ge x y : Qltb x y = false <-> y <= x.
Proof.
  unfold Qltb. rewrite negb_false_iff. apply Qle_bool_iff.
Qed.

Lemma Qle_bool_false x y : Qle_bool x y = false <-> y < x.
Proof.
  rewrite <- Qltb_lt. unfold Qltb. rewrite negb_true_iff. reflexivity.
Qed.

Lemma Qeq_bool_false x y : Qeq_bool x y = false <-> ~ x == y.
Proof.
  split.
  - intros H Heq. apply Qeq_bool_iff in Heq. congruence.
  - intros H. destruct (Qeq_bool x y) eqn:E; [|reflexivity].
    apply Qeq_bool_iff in E. contradiction.
Qed.

Lemma py_div_ok x y : ~ y == 0 -> py_div x y = Ok (x / y).
Proof.
  intros H. unfold py_div. apply Qeq_bool_false in H. now rewrite H.
Qed.

Lemma py_div_zero x y : y == 0 -> py_div x y = Raise ZeroDivisionError.
Proof.
  intros H. unfold py_div. apply Qeq_bool_iff in H. now rewrite H.
Qed.

(** ** Heap computations *)

Lemma read_ok {T} (h : list T) r v :
  h !! r = Some v -> Heap.read r h = Ok (v, h).
Proof. intros E. unfold Heap.read. now rewrite E. Qed.

Lemma write_ok {T} (h : list T) r v v' :
  h !! r = Some v -> Heap.write r v' h = Ok (tt, <[r := v']> h).
Proof. intros E. unfold Heap.write. now rewrite E. Qed.

Lemma modify_ok {T} (h : list T) r v f :
  h !! r = Some v -> Heap.modify r f h = Ok (tt, <[r := f v]> h).
Proof.
  intros E. unfold Heap.modify, Heap.bind. rewrite (read_ok _ _ _ E).
  apply (write_ok _ _ _ _ E).
Qed.

Lemma bind_eq {T A B} (c : Heap.M T A) (k : A -> Heap.M T B) h :
  Heap.bind c k h =
    match c h with Ok (a, h') => k a h' | Raise e => Raise e end.
Proof. reflexivity. Qed.

Lemma getter_ok {T A} (f : T -> A) (h : list T) r o :
  h !! r = Some o ->
  Heap.bind (Heap.read r) (fun o => Heap.ret (f o)) h = Ok (f o, h).
Proof. intros E. rewrite bind_eq, (read_ok _ _ _ E). reflexivity. Qed.

Lemma heap_insert_eq {T} (h : list T) r v v' :
  h !! r = Some v -> <[r := v']> h !! r = Some v'.
Proof. intros E. apply list_lookup_insert_eq. eapply lookup_lt_Some; eauto. Qed.

Lemma heap_insert_ne {T} (h : list T) r r' v' :
  r <> r' -> <[r := v']> h !! r' = h !! r'.
Proof. intros E. now apply list_lookup_insert_ne. Qed.

Ltac heap_get E := rewrite bind_eq; erewrite getter_ok by exact E.
Ltac heap_modify E := rewrite bind_eq; erewrite modify_ok by exact E.

(** ** [OdTons]: the four updates of [derive] *)

Lemma remove_original_ok h r o ton :
  h !! r = Some o -> ton <= OdTons.original o ->
  OdTons._remove_original_ton r ton h =
    Ok (tt, <[r := OdTons.mk (OdTons.original o - ton) (OdTons.derived o)
                     (OdTons.projection_factor o) (OdTons.category o)]> h).
Proof.
  intros E Hle.
  unfold OdTons._remove_original_ton, OdTons._remove_ton, OdTons.get,
    Heap.bind, Heap.lift.
  simpl. rewrite (read_ok _ _ _ E). simpl.
  apply Qle_bool_iff in Hle. rewrite Hle. simpl.
  rewrite (read_ok _ _ _ E). simpl.
  apply (write_ok _ _ _ _ E).
Qed.

Lemma remove_derived_ok h r o ton :
  h !! r = Some o -> ton <= OdTons.derived o ->
  OdTons._remove_derived_ton r ton h =
    Ok (tt, <[r := OdTons.mk (OdTons.original o) (OdTons.derived o - ton)
                     (OdTons.projection_factor o) (OdTons.category o)]> h).
Proof.
  intros E Hle.
  unfold OdTons._remove_derived_ton, OdTons._remove_ton, OdTons.get,
    Heap.bind, Heap.lift.
  simpl. rewrite (read_ok _ _ _ E). simpl.
  apply Qle_bool_iff in Hle. rewrite Hle. simpl.
  rewrite (read_ok _ _ _ E). simpl.
  apply (write_ok _ _ _ _ E).
Qed.

Lemma add_derived_ok h r o ton :
  h !! r = Some o ->
  exists v, v == OdTons.derived o + ton /\
  OdTons._add_derived_ton r ton h =
    Ok (tt, <[r := OdTons.mk (OdTons.original o) v
                     (OdTons.projection_factor o) (OdTons.category o)]> h).
Proof.
  intros E.
  unfold OdTons._add_derived_ton, OdTons._add_ton, OdTons.get,
    Heap.bind, Heap.lift.
  simpl. rewrite (read_ok _ _ _ E). simpl. rewrite (read_ok _ _ _ E).
  destruct (Qeq_bool (OdTons.derived o) 0) eqn:Ez; simpl.
  - exists ton. split.
    + apply Qeq_bool_iff in Ez. rewrite Ez. ring.
    + apply (write_ok _ _ _ _ E).
  - exists (OdTons.derived o + ton). split; [reflexivity|].
    apply (write_ok _ _ _ _ E).
Qed.

Lemma add_original_ok h r o ton :
  h !! r = Some o ->
  exists v, v == OdTons.original o + ton /\
  OdTons.add_original r ton h =
    Ok (tt, <[r := OdTons.mk v (OdTons.derived o)
                     (OdTons.projection_factor o) (OdTons.category o)]> h).
Proof.
  intros E.
  unfold OdTons.add_original, OdTons._add_ton, OdTons.get,
    Heap.bind, Heap.lift.
  simpl. rewrite (read_ok _ _ _ E). simpl. rewrite (read_ok _ _ _ E).
  destruct (Qeq_bool (OdTons.original o) 0) eqn:Ez; simpl.
  - exists ton. split.
    + apply Qeq_bool_iff in Ez. rewrite Ez. ring.
    + apply (write_ok _ _ _ _ E).
  - exists (OdTons.original o + ton). split; [reflexivity|].
    apply (write_ok _ _ _ _ E).
Qed.

Lemma get_mode_ok h r o :
  h !! r = Some o ->
  OdTons.get r (Some "original"%string) h = Ok (OdTons.original o, h) /\
  OdTons.get r (Some "derived"%string) h = Ok (OdTons.derived o, h).
Proof.
  intros E. unfold OdTons.get. cbn [String.eqb Ascii.eqb].
  split; rewrite bind_eq, (read_ok _ _ _ E); reflexivity.
Qed.



(** What [derive] returns and leaves in two distinct ledgers. *)
Lemma OdTons_derive_distinct (h : list OdTons.t) a b ta tb c
    (allow : bool) :
  a <> b -> h !! a = Some ta -> h !! b = Some tb ->
  (if allow
   then (OdTons.original ta + OdTons.derived tb) * c - OdTons.derived tb
   else 0) <= OdTons.original ta ->
  exists (td tr : Q) (ta' tb' : OdTons.t) (h' : list OdTons.t),
    OdTons.derive a b c allow h = Ok ((td, tr), h') /\
    h' !! a = Some ta' /\ h' !! b = Some tb' /\
    td = (if allow
          then (OdTons.original ta + OdTons.derived tb) * c
               - OdTons.derived tb
          else 0) /\
    tr = OdTons.derived ta /\
    OdTons.original ta' == OdTons.original ta - td /\
    OdTons.derived ta' == 0 /\
    OdTons.derived tb' == OdTons.derived tb + td /\
    OdTons.original tb' == OdTons.original tb + tr.
Proof.
  intros Hne Ea Eb Htd.
  unfold OdTons.derive, OdTons.get_original, OdTons.get_derived.
  heap_get Ea. heap_get Eb. heap_get Eb. heap_get Ea.
  set (td := if allow then _ else _) in *.
  rewrite bind_eq, (remove_original_ok _ _ _ _ Ea Htd).
  match goal with |- context [<[a := ?x]> h] => set (a1 := x) end.
  assert (Ea1 : <[a:=a1]> h !! a = Some a1) by (eapply heap_insert_eq; eauto).
  rewrite bind_eq,
    (remove_derived_ok _ _ a1 (OdTons.derived ta) Ea1 (Qle_refl _)).
  match goal with
  | |- context [<[a := ?x]> (<[a := a1]> h)] => set (a2 := x)
  end.
  assert (Ea2 : <[a:=a2]> (<[a:=a1]> h) !! a = Some a2)
    by (eapply heap_insert_eq; eauto).
  assert (Eb2 : <[a:=a2]> (<[a:=a1]> h) !! b = Some tb)
    by (rewrite !heap_insert_ne by assumption; assumption).
  destruct (add_derived_ok _ _ _ td Eb2) as (v1 & Hv1 & E1).
  rewrite bind_eq, E1.
  match goal with
  | |- context [<[b := ?x]> (<[a := a2]> _)] => set (b1 := x)
  end.
  assert (Eb3 : <[b:=b1]> (<[a:=a2]> (<[a:=a1]> h)) !! b = Some b1)
    by (eapply heap_insert_eq; eauto).
  destruct (add_original_ok _ _ _ (OdTons.derived ta) Eb3)
    as (v2 & Hv2 & E2).
  rewrite bind_eq, E2.
  eexists _, _, a2, _, _. split; [reflexivity|].
  split. { rewrite !(heap_insert_ne _ b a) by congruence. exact Ea2. }
  split. { eapply heap_insert_eq; eauto. }
  simpl. repeat split; try reflexivity; try assumption. ring.
Qed.




(** C4.  With a ledger A constructed with 1000 original tons and a
    ledger B constructed with 0 original tons, in any heap,
    [A.derive(B, 0.3)] returns [(300, 0)], and after it
    [A.get("original")] is 700 and [B.get("derived")] is 300. *)
Theorem derivation_scenario_result (h : list OdTons.t) :
  exists to_derive to_return a_original b_derived h',
    derivation_scenario h
    = Ok ((to_derive, to_return, a_original, b_derived), h') /\
    to_derive == 300 /\ to_return == 0 /\
    a_original == 700 /\ b_derived == 300.
Proof.
  unfold derivation_scenario, OdTons.__init__.
  rewrite bind_eq. unfold Heap.new at 1. rewrite bind_eq. unfold Heap.new at 1.
  set (A0 := OdTons.mk 1000 0 1 None). set (B0 := OdTons.mk 0 0 1 None).
  assert (Ea : ((h ++ [A0]) ++ [B0]) !! length h = Some A0).
  { rewrite lookup_app_l by (rewrite length_app; simpl; lia).
    apply list_lookup_middle. reflexivity. }
  assert (Eb : ((h ++ [A0]) ++ [B0]) !! length (h ++ [A0]) = Some B0).
  { apply list_lookup_middle. reflexivity. }
  assert (Hne : length h <> length (h ++ [A0])).
  { rewrite length_app. simpl. lia. }
  destruct (OdTons_derive_distinct _ _ _ _ _ (3 # 10) true Hne Ea Eb)
    as (td & tr & ta' & tb' & h' & E & Ea' & Eb'
        & Htd & Htr & H1 & H2 & H3 & H4).
  { vm_compute. discriminate. }
  rewrite bind_eq, E.
  destruct (get_mode_ok _ _ _ Ea') as [Ga _].
  destruct (get_mode_ok _ _ _ Eb') as [_ Gb].
  rewrite bind_eq, Ga, bind_eq, Gb.
  eexists _, _, _, _, _. split; [reflexivity|].
  cbn [fst snd]. subst td tr. cbn [OdTons.original OdTons.derived A0 B0] in *.
  repeat split; lra.
Qed.

(** ** [LinkTons] *)

Section MapFoldSingle.
Context {K : Type} `{Countable K} {A B : Type}.

(** A fold that only acts on the keys of a one-element filter acts on
    the value stored under that key, if there is one. *)
Lemma map_fold_selected_single (g : A -> B -> B) (k0 : K) (m : gmap K A)
    (b : B) :
  map_fold (fun k v acc =>
              if LinkTons.selected (Some [k0]) k then g v acc else acc) b m
  = match m !! k0 with Some v => g v b | None => b end.
Proof.
  apply (map_fold_weak_ind
           (fun r m => r = match m !! k0 with Some v => g v b | None => b end)).
  - rewrite lookup_empty. reflexivity.
  - intros i x m' r Hi IH. unfold LinkTons.selected.
    destruct (decide (i = k0)) as [->|Hne].
    + rewrite bool_decide_eq_true_2 by (now apply list_elem_of_singleton).
      rewrite lookup_insert_eq. rewrite Hi in IH. now subst r.
    + rewrite bool_decide_eq_false_2
        by (intros Hin; now apply list_elem_of_singleton in Hin).
      rewrite lookup_insert_ne by assumption. exact IH.
Qed.
End MapFoldSingle.

Lemma get_single (t : LinkTons.t) (m : string) (c : Z) (i : string) :
  c <> 0%Z -> i <> ""%string -> m <> ""%string ->
  LinkTons.get t (LinkTons.ArgOne c) (LinkTons.ArgOne i) (LinkTons.ArgOne m)
  == slot_tons t m c i.
Proof.
  intros Hc Hi Hm. unfold LinkTons.get, LinkTons.as_filter, truthy,
    Z_truthy, string_truthy.
  apply Z.eqb_neq in Hc. apply String.eqb_neq in Hi, Hm.
  rewrite Hc, Hi, Hm. cbn [negb].
  rewrite (map_fold_selected_single
             (fun mv acc =>
                LinkTons.sum_categories (Some [c]) (Some [i]) mv acc)).
  unfold slot_tons, LinkTons.entry.
  destruct (t !! m) as [mv|]; [|reflexivity].
  unfold LinkTons.sum_categories.
  rewrite (map_fold_selected_single
             (fun cv acc => LinkTons.sum_values (Some [i]) cv acc)).
  destruct (mv !! c) as [cv|]; [|reflexivity].
  unfold LinkTons.sum_values.
  rewrite (map_fold_selected_single (fun v acc => acc + v)).
  destruct (cv !! i) as [v|]; simpl; [ring|reflexivity].
Qed.

Lemma get_derived_slot (t : LinkTons.t) c i :
  c <> 0%Z -> i <> ""%string ->
  LinkTons.get_derived t (LinkTons.ArgOne c) (LinkTons.ArgOne i)
  == slot_tons t "derived" c i.
Proof. intros. now apply get_single. Qed.

Lemma get_original_slot (t : LinkTons.t) c i :
  c <> 0%Z -> i <> ""%string ->
  LinkTons.get_original t (LinkTons.ArgOne c) (LinkTons.ArgOne i)
  == slot_tons t "original" c i.
Proof. intros. now apply get_single. Qed.



Ltac mapsimp :=
  repeat first
    [ rewrite lookup_insert_eq | rewrite lookup_empty
    | rewrite insert_insert_eq | progress cbn [default from_option id] ].

(** [_safe_dict_keys] leaves a ledger whose slot exists and holds the
    tons it held before, 0.0 if it did not exist. *)
Lemma safe_dict_keys_spec (t : LinkTons.t) m c i :
  exists mv cv,
    LinkTons._safe_dict_keys c i m t = <[m := <[c := cv]> mv]> t /\
    cv !! i = Some (slot_tons t m c i).
Proof.
  unfold LinkTons._safe_dict_keys, slot_tons, LinkTons.entry. cbv zeta.
  destruct (t !! m) as [mv0|] eqn:Em.
  - case_bool_decide as Hsz.
    + apply map_size_empty_iff in Hsz. subst mv0. mapsimp.
      eexists _, _. split; [reflexivity|]. now mapsimp.
    + rewrite Em. cbn [default from_option id].
      destruct (mv0 !! c) as [cv0|] eqn:Ec.
      * rewrite Ec. cbn [default from_option id].
        destruct (cv0 !! i) as [v0|] eqn:Ei.
        -- eexists _, _. split; [reflexivity|]. exact Ei.
        -- eexists _, _. split; [reflexivity|]. now mapsimp.
      * mapsimp.
        eexists _, _. split; [reflexivity|]. now mapsimp.
  - mapsimp.
    eexists _, _. split; [reflexivity|]. now mapsimp.
Qed.

Lemma getitem_prepared (t : LinkTons.t) m c i mv cv v :
  cv !! i = Some v ->
  LinkTons.getitem (<[m := <[c := cv]> mv]> t) m c i = Ok v.
Proof.
  intros E. unfold LinkTons.getitem, LinkTons.entry.
  rewrite !lookup_insert_eq. now rewrite E.
Qed.

Lemma setitem_prepared (t : LinkTons.t) m c i mv cv v :
  LinkTons.setitem (<[m := <[c := cv]> mv]> t) m c i v
  = Ok (<[m := <[c := <[i := v]> cv]> mv]> t).
Proof.
  unfold LinkTons.setitem. rewrite !lookup_insert_eq.
  now rewrite !insert_insert_eq.
Qed.












Lemma clean_fold (significance : Q) (l : list Q)
    (st : LinkTons.t * option Q) :
  fst (fold_left (LinkTons.clean_step significance) l st) = fst st.
Proof.
  revert st. induction l as [|v l IH]; intros st; [reflexivity|].
  cbn [fold_left]. rewrite IH. now destruct st.
Qed.

(** C10.  For every ledger and every significance threshold,
    [clean_insignificant_ton_values] leaves the nested tons mapping as it
    is: no stored value is zeroed, modified or removed. *)
Theorem clean_insignificant_ton_values_unchanged
    (significance : Q) (t : LinkTons.t) :
  LinkTons.clean_insignificant_ton_values significance t = t.
Proof. unfold LinkTons.clean_insignificant_ton_values. apply clean_fold. Qed.

(** ** [OD] *)

Lemma construct_5_5 :
  OD.construct "5-5" 500 None None None None = Ok od_5_5.
Proof. vm_compute. reflexivity. Qed.

Lemma init_5_5 (h : list OD.t) :
  OD.__init__ "5-5" 500 None None None None h = Ok (length h, h ++ [od_5_5]).
Proof.
  unfold OD.__init__. rewrite bind_eq. unfold Heap.lift.
  rewrite construct_5_5. reflexivity.
Qed.

(** C7 as stated fails: right after [OD("5-5", ton=500)], [get_dist()]
    returns [None], the default of the [dist] parameter, not 0. *)
Lemma intrazone_od_dist_not_zero_after_construction :
  ~ exists od h d,
      OD.__init__ "5-5" 500 None None None None [] = Ok (od, h) /\
      OD.get_dist od h = Ok (Some d, h) /\ d == 0.
Proof.
  intros (od & h & d & E & G & _).
  rewrite init_5_5 in E. injection E as <- <-.
  vm_compute in G. discriminate.
Qed.

(** C7, as amended.  The OD pair built by [OD("5-5", ton=500)] is
    intrazone right after construction and its [get_dist()] is [None]
    then; once [calc_distance] has run, for any link table, [get_dist()]
    is 0 and the pair is still intrazone. *)
Theorem intrazone_od_after_construction (h : list OD.t) :
  exists od h1 o,
    OD.__init__ "5-5" 500 None None None None h = Ok (od, h1) /\
    h1 !! od = Some o /\
    OD.is_intrazone o = true /\
    OD.get_dist od h1 = Ok (None, h1) /\
    forall (L : Type) (LC : LinkClass L) (network_links : LinkTable L),
    exists h2 o2 d,
      OD.calc_distance od network_links h1 = Ok (tt, h2) /\
      OD.get_dist od h2 = Ok (Some d, h2) /\ d == 0 /\
      h2 !! od = Some o2 /\ OD.is_intrazone o2 = true.
Proof.
  assert (E1 : (h ++ [od_5_5]) !! length h = Some od_5_5)
    by (apply list_lookup_middle; reflexivity).
  exists (length h), (h ++ [od_5_5]), od_5_5.
  split; [apply init_5_5|]. split; [exact E1|]. split; [reflexivity|].
  split; [unfold OD.get_dist; now rewrite (getter_ok _ _ _ _ E1)|].
  intros L LC network_links.
  unfold OD.calc_distance. rewrite (modify_ok _ _ _ _ E1).
  eexists _, _, _. split; [reflexivity|].
  assert (E2 := heap_insert_eq _ _ _
                  (OD.set_dist
                     (Some (OD.path_distance network_links od_5_5)) od_5_5)
                  E1).
  split; [unfold OD.get_dist; rewrite (getter_ok _ _ _ _ E2); reflexivity|].
  split; [reflexivity|]. split; [exact E2|reflexivity].
Qed.

(** ** Total ton-km *)

Section NetworkFacts.
Context {L R : Type} `{LinkClass L} `{RollingMaterialClass R}.

(** When [get_total_ton_km] returns: the OD pairs have a distance, their
    total ton-km is not zero, and the two totals agree. *)
Lemma get_total_ton_km_returns (n : Network L R) (h : list OD.t) (x : Q) :
  BaseModalNetwork.get_total_ton_km n h = Ok x <->
  exists tk_od,
    BaseModalNetwork.total_tk_od n h = Ok tk_od /\
    ~ tk_od == 0 /\
    Qabs (BaseModalNetwork.total_tk_link n / tk_od - 1) < 1 # 1000 /\
    x = BaseModalNetwork.total_tk_link n.
Proof.
  unfold BaseModalNetwork.get_total_ton_km.
  destruct (BaseModalNetwork.total_tk_od n h) as [tk_od|e]; cbn [rbind].
  - unfold py_div. destruct (Qeq_bool tk_od 0) eqn:Ez; cbn [rbind].
    + apply Qeq_bool_iff in Ez. split; [discriminate|].
      intros (y & [= <-] & Hnz & _). contradiction.
    + apply Qeq_bool_false in Ez.
      destruct (Qltb _ _) eqn:El; cbn [py_assert rbind].
      * apply Qltb_lt in El. split.
        -- intros [= <-]. exists tk_od. repeat split; assumption.
        -- intros (y & [= <-] & _ & _ & ->). reflexivity.
      * apply Qltb_ge in El. split; [discriminate|].
        intros (y & [= <-] & _ & Hlt & _). lra.
  - split; [discriminate|]. intros (y & Hy & _). discriminate.
Qed.



(** C8, on the code.  For the network without links and OD pairs both
    totals are 0.0 and agree, and [get_total_ton_km] raises
    [ZeroDivisionError] instead of returning the link-based total. *)
Theorem total_ton_km_empty_network_raises (h : list OD.t) :
  BaseModalNetwork.get_total_ton_km
    (BaseModalNetwork.__init__ : Network L R) h = Raise ZeroDivisionError.
Proof. reflexivity. Qed.
End NetworkFacts.


(** ** [get_od] *)

Section GetOd.
Context {L R : Type} `{LinkClass L} `{RollingMaterialClass R}.
Variable create_od_pair :
  Network L R -> string -> Z -> Heap.M OD.t (Network L R).

(** A stored OD pair is returned, and nothing changes. *)
Lemma get_od_stored (n : Network L R) id_od category_od od_pair od h :
  od_pairs n !! id_od = Some od_pair ->
  od_pair !! category_od = Some od ->
  BaseModalNetwork.get_od create_od_pair n id_od category_od h
  = Ok ((n, od), h).
Proof.
  intros E1 E2. unfold BaseModalNetwork.get_od, Heap.bind, Heap.ret, Heap.lift.
  rewrite E1. cbn. rewrite E1. cbn. rewrite E2. cbn. rewrite E1. cbn.
  rewrite E2. reflexivity.
Qed.

(** C9, on the code.  When the id is present and the category is not,
    [get_od] calls [_create_od_pair] without the category and raises
    [TypeError]; no OD pair is created or returned. *)
Theorem get_od_missing_category_raises
    (n : Network L R) id_od category_od od_pair h :
  od_pairs n !! id_od = Some od_pair ->
  od_pair !! category_od = None ->
  BaseModalNetwork.get_od create_od_pair n id_od category_od h
  = Raise TypeError.
Proof.
  intros E1 E2. unfold BaseModalNetwork.get_od, Heap.bind, Heap.ret, Heap.lift.
  rewrite E1. cbn. rewrite E1. cbn. rewrite E2. reflexivity.
Qed.
End GetOd.

Lemma get_od_missing_category_raises_witness :
  BaseModalNetwork.get_od sample_create_od_pair sample_rail_network
    "1-3" 2 sample_heap = Raise TypeError.
Proof.
  apply (get_od_missing_category_raises sample_create_od_pair
           sample_rail_network "1-3" 2 (<[1%Z := 0%nat]> ∅) sample_heap);
    reflexivity.
Defined.

(** With the sample builder, an id that is not in the network yet gets
    its OD pair. *)
Lemma get_od_new_id_creates :
  exists n od h,
    BaseModalNetwork.get_od sample_create_od_pair sample_rail_network
      "2-7" 2 sample_heap = Ok ((n, od), h) /\
    (exists o, h !! od = Some o /\ OD.id o = "2-7"%string /\
               OD.rail_category o = Some 2%Z).
Proof.
  eexists _, _, _. split; [vm_compute; reflexivity|].
  eexists. split; [vm_compute; reflexivity|]. split; reflexivity.
Qed.

(** ** The regrouping pass *)

Section Regrouping.
Context {L R : Type} `{LinkClass L} `{RollingMaterialClass R}.

Hypothesis link_revert_regroup_regroup :
  forall x (l : L), link_revert_regroup x (link_regroup x l) = l.
Hypothesis link_regroup_dist :
  forall x (l : L), link_get_dist (link_regroup x l) = link_get_dist l.
Hypothesis rm_revert_regroup_regroup :
  forall u d (r : R), rm_revert_regroup u d (rm_regroup u d r) = r.
Hypothesis rm_subtract_add_regroup_time :
  forall w (r : R), rm_subtract_regroup_time w (rm_add_regroup_time w r) = r.






End Regrouping.





Lemma sum_values_zero (RV : Breakdown) :
(forall k v, RV !! k = Some v -> v == 0) -> sum_values RV == 0.
Proof.
unfold sum_values.
apply (map_fold_weak_ind
         (fun r (m : Breakdown) =>
            (forall k v, m !! k = Some v -> v == 0) -> r == 0)).
- intros _. reflexivity.
- intros k x m r Hk IH Hall.
  rewrite IH, (Hall k x) by
    (try apply lookup_insert_eq;
     intros k' v' E; apply (Hall k'); rewrite lookup_insert_ne; congruence).
  reflexivity.
Qed.

(** ** The guard on the total ton-km

    The rail cost methods test [total_ton_km > 0.1] before they divide;
    the road cost methods divide without a test. *)

Section RailGuard.
Context {L R : Type} `{LinkClass L} `{RollingMaterialClass R}.

Ltac run_rbind :=
  repeat match goal with
         | |- context [rbind ?x _] =>
             lazymatch x with
             | rbind _ _ => fail
             | Ok _ => cbn [rbind]
             | _ => destruct x; [|discriminate]; cbn [rbind]
             end
         end.

(** Every rail mobility component is 0 for a total of at most 0.1. *)
Lemma rail_component_guard (c : NetworkCost L R) :
  total_ton_km c <= 1 # 10 ->
  forall v,
    RailwayNetworkCost._cost_eac_wagon c = Ok v \/
    RailwayNetworkCost._cost_eac_locom c = Ok v \/
    RailwayNetworkCost._cost_fuel_and_lub c = Ok v \/
    RailwayNetworkCost._cost_mobility_maintenance c = Ok v \/
    RailwayNetworkCost._cost_manpower c = Ok v ->
    v == 0.
Proof.
  intros Hsmall v. apply Qltb_ge in Hsmall.
  unfold RailwayNetworkCost._cost_eac_wagon,
    RailwayNetworkCost._cost_eac_locom,
    RailwayNetworkCost._cost_fuel_and_lub,
    RailwayNetworkCost._cost_mobility_maintenance,
    RailwayNetworkCost._cost_manpower, RailwayNetworkCost._cost_eac_ton_km.
  rewrite !Hsmall.
  intros [E|[E|[E|[E|E]]]]; revert E; run_rbind; intros [= <-]; ring.
Qed.

(** So is every entry of the rail mobility breakdown, the total
    included. *)
Lemma rail_mobility_guard (c : NetworkCost L R) RV :
  total_ton_km c <= 1 # 10 ->
  RailwayNetworkCost.cost_mobility c = Ok RV ->
  forall k v, RV !! k = Some v -> v == 0.
Proof.
  intros Hsmall. pose proof (rail_component_guard c Hsmall) as Hc.
  unfold RailwayNetworkCost.cost_mobility.
  destruct (RailwayNetworkCost._cost_eac_wagon c) as [v1|]; [|discriminate].
  destruct (RailwayNetworkCost._cost_eac_locom c) as [v2|]; [|discriminate].
  destruct (RailwayNetworkCost._cost_fuel_and_lub c) as [v3|];
    [|discriminate].
  destruct (RailwayNetworkCost._cost_mobility_maintenance c) as [v4|];
    [|discriminate].
  destruct (RailwayNetworkCost._cost_manpower c) as [v5|]; [|discriminate].
  cbn [rbind]. intros [= <-].
  match goal with
  | |- forall k v, <[_ := sum_values ?m]> _ !! k = Some v -> _ =>
      set (parts := m)
  end.
  assert (Hparts : forall k v, parts !! k = Some v -> v == 0).
  { intros k v E. subst parts.
    repeat (apply lookup_insert_Some in E as [[_ <-]|[_ E]];
            [apply Hc; tauto|]).
    rewrite lookup_empty in E. discriminate. }
  intros k v E.
  apply lookup_insert_Some in E as [[_ <-]|[_ E]].
  - now apply sum_values_zero.
  - now apply (Hparts k).
Qed.

(** The rail infrastructure costs are normalised under the same guard. *)
Lemma rail_infrast_guard (py_pow : Q -> Q -> result Q)
    (c : NetworkCost L R) RV table :
  total_ton_km c <= 1 # 10 ->
  RailwayNetworkCost.cost_infrast py_pow c = Ok (RV, table) ->
  forall k v, RV !! k = Some v -> v == 0.
Proof.
  intros Hsmall. apply Qltb_ge in Hsmall.
  unfold RailwayNetworkCost.cost_infrast.
  destruct (BaseNetworkCost.param c "wagon_capacity") as [wc|];
    [|discriminate].
  destruct (BaseNetworkCost.param c "wagon_weight") as [ww|];
    [|discriminate].
  destruct (BaseNetworkCost.param c "locomotive_capacity") as [lc|];
    [|discriminate].
  destruct (BaseNetworkCost.param c "locomotive_weight") as [lw|];
    [|discriminate].
  cbn [rbind].
  destruct (RailwayNetworkCost.cost_infrast_links _ _ _ _ _ _ _ _)
    as [[RV0 table0]|]; [|discriminate].
  cbn [rbind]. intros [= <- _].
  assert (Hparts : forall k v,
            (RailwayNetworkCost.per_ton_km c <$> RV0) !! k = Some v ->
            v == 0).
  { intros k v E. rewrite lookup_fmap in E.
    destruct (RV0 !! k); [|discriminate]. cbn in E. injection E as <-.
    unfold RailwayNetworkCost.per_ton_km. now rewrite Hsmall. }
  intros k v E.
  apply lookup_insert_Some in E as [[_ <-]|[_ E]].
  - now apply sum_values_zero.
  - now apply (Hparts k).
Qed.
End RailGuard.

(** C2, on the code.  In the road network whose total ton-km is 0.05 the
    cost object is built and both road cost computations divide by that
    total: the mobility cost per ton-km is 3 and the infrastructure cost
    per ton-km is 2, not zero. *)
Theorem road_costs_divide_by_near_zero_total :
  exists c,
    BaseNetworkCost.__init__ near_zero_road_network near_zero_heap = Ok c /\
    total_ton_km c == (1 # 20) /\
    (exists RV v,
       RoadwayNetworkCost.cost_mobility c near_zero_heap = Ok RV /\
       RV !! "total_mobility"%string = Some v /\ v == 3) /\
    (exists RV table v w,
       RoadwayNetworkCost.cost_infrast sample_pow c = Ok (RV, table) /\
       RV !! "eac_track"%string = Some v /\ v == 2 /\
       RV !! "total_infrastructure"%string = Some w /\ w == 2).
Proof.
  eexists. split; [vm_compute; reflexivity|].
  split; [vm_compute; reflexivity|]. split.
  - eexists _, _. split; [vm_compute; reflexivity|].
    split; [vm_compute; reflexivity|]. vm_compute. reflexivity.
  - eexists _, _, _, _. split; [vm_compute; reflexivity|].
    split; [vm_compute; reflexivity|].
    split; [vm_compute; reflexivity|].
    split; [vm_compute; reflexivity|]. vm_compute. reflexivity.
Qed.

(** * Further properties of the code *)

(** ** [OdTons]: projection *)

Lemma project_ok (h : list OdTons.t) r o factor :
  h !! r = Some o ->
  OdTons.project r factor h =
    Ok (tt, <[r := OdTons.mk (OdTons.original o * factor)
                     (OdTons.derived o * factor) factor
                     (OdTons.category o)]> h).
Proof. intros E. unfold OdTons.project. now erewrite modify_ok by exact E. Qed.

Lemma revert_project_ok (h : list OdTons.t) r o :
  h !! r = Some o -> ~ OdTons.projection_factor o == 0 ->
  OdTons.revert_project r h =
    Ok (tt, <[r := OdTons.mk (OdTons.original o / OdTons.projection_factor o)
                     (OdTons.derived o / OdTons.projection_factor o) 1
                     (OdTons.category o)]> h).
Proof.
  intros E F. unfold OdTons.revert_project.
  rewrite bind_eq, (read_ok _ _ _ E).
  rewrite bind_eq. unfold Heap.lift at 1. rewrite (py_div_ok _ _ F).
  rewrite bind_eq, (write_ok _ _ _ _ E).
  rewrite bind_eq, (read_ok _ _ _ (heap_insert_eq _ _ _ _ E)).
  cbn [OdTons.original OdTons.derived OdTons.projection_factor
       OdTons.category].
  rewrite bind_eq. unfold Heap.lift at 1. rewrite (py_div_ok _ _ F).
  rewrite (write_ok _ _ _ _ (heap_insert_eq _ _ _ _ E)).
  now rewrite list_insert_insert_eq.
Qed.

Lemma revert_project_zero (h : list OdTons.t) r o :
  h !! r = Some o -> OdTons.projection_factor o == 0 ->
  OdTons.revert_project r h = Raise ZeroDivisionError.
Proof.
  intros E F. unfold OdTons.revert_project.
  rewrite bind_eq, (read_ok _ _ _ E).
  rewrite bind_eq. unfold Heap.lift at 1. now rewrite (py_div_zero _ _ F).
Qed.

(** X1.  [project(f)] followed by [revert_project()] gives back the
    original and the derived tons of the ledger, sets the projection
    factor to 1 again, keeps the category and leaves every other ledger
    alone, for every factor f other than 0.  For f = 0 the projection is
    not reversible: [revert_project()] raises [ZeroDivisionError]. *)
Theorem project_then_revert_project (h : list OdTons.t) (r : nat)
    (o : OdTons.t) (factor : Q) :
  h !! r = Some o ->
  exists h1,
    OdTons.project r factor h = Ok (tt, h1) /\
    (factor == 0 -> OdTons.revert_project r h1 = Raise ZeroDivisionError) /\
    (~ factor == 0 ->
     exists h2 o2,
       OdTons.revert_project r h1 = Ok (tt, h2) /\
       h2 !! r = Some o2 /\
       OdTons.original o2 == OdTons.original o /\
       OdTons.derived o2 == OdTons.derived o /\
       OdTons.projection_factor o2 = 1 /\
       OdTons.category o2 = OdTons.category o /\
       forall r', r' <> r -> h2 !! r' = h !! r').
Proof.
  intros E. eexists. split; [exact (project_ok _ _ _ _ E)|].
  pose proof (heap_insert_eq h r o
    (OdTons.mk (OdTons.original o * factor) (OdTons.derived o * factor)
       factor (OdTons.category o)) E) as E1.
  split.
  - intros F. now apply (revert_project_zero _ _ _ E1).
  - intros F. eexists _, _. split; [exact (revert_project_ok _ _ _ E1 F)|].
    split; [exact (heap_insert_eq _ _ _ _ E1)|].
    cbn [OdTons.original OdTons.derived OdTons.projection_factor
         OdTons.category].
    repeat split.
    + now field.
    + now field.
    + intros r' Hr. now rewrite !heap_insert_ne by congruence.
Qed.

Lemma project_then_revert_project_witness :
  exists h1,
    OdTons.project 0 (3 # 2) [OdTons.mk 1000 200 1 None] = Ok (tt, h1) /\
    exists h2 o2,
      OdTons.revert_project 0 h1 = Ok (tt, h2) /\
      h2 !! 0%nat = Some o2 /\
      OdTons.original o2 == 1000 /\ OdTons.derived o2 == 200.
Proof.
  destruct (project_then_revert_project
              [OdTons.mk 1000 200 1 None] 0 (OdTons.mk 1000 200 1 None)
              (3 # 2) eq_refl) as (h1 & P & _ & R).
  exists h1. split; [exact P|].
  destruct R as (h2 & o2 & R & E & A & B & _); [discriminate|].
  exists h2, o2. repeat split; assumption.
Defined.

(** X2.  Projections do not stack: [project(f1)], [project(f2)] and one
    [revert_project()] (f2 other than 0) leave the tons multiplied by f1
    with a projection factor of 1, so the first projection can no longer
    be reverted. *)
Theorem project_twice_revert_once (h : list OdTons.t) (r : nat)
    (o : OdTons.t) (f1 f2 : Q) :
  h !! r = Some o -> ~ f2 == 0 ->
  exists h1 h2 h3 o3,
    OdTons.project r f1 h = Ok (tt, h1) /\
    OdTons.project r f2 h1 = Ok (tt, h2) /\
    OdTons.revert_project r h2 = Ok (tt, h3) /\
    h3 !! r = Some o3 /\
    OdTons.original o3 == OdTons.original o * f1 /\
    OdTons.derived o3 == OdTons.derived o * f1 /\
    OdTons.projection_factor o3 = 1.
Proof.
  intros E F.
  pose proof (heap_insert_eq h r o
    (OdTons.mk (OdTons.original o * f1) (OdTons.derived o * f1)
       f1 (OdTons.category o)) E) as E1.
  pose proof (heap_insert_eq _ r _
    (OdTons.mk (OdTons.original o * f1 * f2) (OdTons.derived o * f1 * f2)
       f2 (OdTons.category o)) E1) as E2.
  eexists _, _, _, _.
  split; [exact (project_ok _ _ _ _ E)|].
  split; [exact (project_ok _ _ _ _ E1)|].
  split; [exact (revert_project_ok _ _ _ E2 F)|].
  split; [exact (heap_insert_eq _ _ _ _ E2)|].
  cbn [OdTons.original OdTons.derived OdTons.projection_factor].
  repeat split; now field.
Qed.

Lemma project_twice_revert_once_witness :
  exists h1 h2 h3 o3,
    OdTons.project 0 2 [OdTons.mk 1000 200 1 None] = Ok (tt, h1) /\
    OdTons.project 0 3 h1 = Ok (tt, h2) /\
    OdTons.revert_project 0 h2 = Ok (tt, h3) /\
    h3 !! 0%nat = Some o3 /\
    OdTons.original o3 == 1000 * 2 /\
    OdTons.derived o3 == 200 * 2 /\
    OdTons.projection_factor o3 = 1.
Proof.
  apply (project_twice_revert_once
           [OdTons.mk 1000 200 1 None] 0 (OdTons.mk 1000 200 1 None) 2 3
           eq_refl).
  discriminate.
Defined.

(** ** [OdTons.derive]: shares, repetition, refusal *)





Lemma remove_original_fails (h : list OdTons.t) r o ton :
  h !! r = Some o -> OdTons.original o < ton ->
  exists msg,
    OdTons._remove_original_ton r ton h = Raise (AssertionError msg).
Proof.
  intros E Hlt.
  unfold OdTons._remove_original_ton, OdTons._remove_ton.
  rewrite bind_eq. rewrite (proj1 (get_mode_ok _ _ _ E)).
  rewrite bind_eq. unfold Heap.lift at 1.
  assert (F : Qle_bool ton (OdTons.original o) = false)
    by now apply Qle_bool_false.
  rewrite F. cbn. eauto.
Qed.

(** X5.  A coefficient above 1 is refused: when A.original + B.derived is
    positive and c > 1, [A.derive(B, c)] raises the [AssertionError] of
    [_remove_ton] (more original tons would be removed than A has), for
    distinct ledgers and for one ledger passed twice. *)
Theorem derive_over_coefficient_raises (h : list OdTons.t) (a b : nat)
    (ta tb : OdTons.t) (c : Q) :
  h !! a = Some ta -> h !! b = Some tb ->
  1 < c -> 0 < OdTons.original ta + OdTons.derived tb ->
  exists msg, OdTons.derive a b c true h = Raise (AssertionError msg).
Proof.
  intros Ea Eb Hc Hs.
  unfold OdTons.derive, OdTons.get_original, OdTons.get_derived.
  heap_get Ea. heap_get Eb. heap_get Eb. heap_get Ea.
  rewrite bind_eq.
  destruct (remove_original_fails h a ta
              ((OdTons.original ta + OdTons.derived tb) * c
               - OdTons.derived tb) Ea) as (msg & F).
  { nra. }
  rewrite F. eauto.
Qed.

Lemma derive_over_coefficient_raises_witness :
  exists msg,
    OdTons.derive 0 1 2 true
      [OdTons.mk 1000 200 1 None; OdTons.mk 50 400 1 None]
    = Raise (AssertionError msg).
Proof.
  apply (derive_over_coefficient_raises
           [OdTons.mk 1000 200 1 None; OdTons.mk 50 400 1 None] 0 1
           (OdTons.mk 1000 200 1 None) (OdTons.mk 50 400 1 None) 2).
  - reflexivity.
  - reflexivity.
  - reflexivity.
  - reflexivity.
Defined.

(** X6.  [A.derive(B, c, allow_original=False)], for distinct ledgers and
    non-negative A.original: whatever the coefficient, no original tons
    are derived; the call returns [(0, A.derived)], A's derived tons go
    back to B's original tons, and A.original and B.derived stay. *)
Theorem derive_without_original (h : list OdTons.t) (a b : nat)
    (ta tb : OdTons.t) (c : Q) :
  a <> b -> h !! a = Some ta -> h !! b = Some tb ->
  0 <= OdTons.original ta ->
  exists td tr ta' tb' h',
    OdTons.derive a b c false h = Ok ((td, tr), h') /\
    td = 0 /\ tr = OdTons.derived ta /\
    h' !! a = Some ta' /\ h' !! b = Some tb' /\
    OdTons.original ta' == OdTons.original ta /\
    OdTons.derived ta' == 0 /\
    OdTons.derived tb' == OdTons.derived tb /\
    OdTons.original tb' == OdTons.original tb + OdTons.derived ta.
Proof.
  intros Hab Ea Eb Hpos.
  destruct (OdTons_derive_distinct h a b ta tb c false Hab Ea Eb Hpos)
    as (td & tr & ta' & tb' & h' & D & Ea' & Eb' & -> & -> & A & B & C & E).
  eexists _, _, ta', tb', h'.
  split; [exact D|].
  repeat split; try eassumption; try reflexivity; lra.
Qed.

Lemma derive_without_original_witness :
  exists td tr ta' tb' h',
    OdTons.derive 0 1 (3 # 10) false
      [OdTons.mk 1000 200 1 None; OdTons.mk 50 400 1 None]
    = Ok ((td, tr), h') /\
    td = 0 /\ tr = 200 /\
    h' !! 0%nat = Some ta' /\ h' !! 1%nat = Some tb' /\
    OdTons.original ta' == 1000 /\
    OdTons.derived ta' == 0 /\
    OdTons.derived tb' == 400 /\
    OdTons.original tb' == 50 + 200.
Proof.
  apply (derive_without_original
           [OdTons.mk 1000 200 1 None; OdTons.mk 50 400 1 None] 0 1
           (OdTons.mk 1000 200 1 None) (OdTons.mk 50 400 1 None) (3 # 10)).
  - discriminate.
  - reflexivity.
  - reflexivity.
  - discriminate.
Defined.

(** ** [OD.derive_ton]: identity check and missing tonnage check *)

(** X7.  [OD.derive_ton] between two OD pairs whose ids differ or whose
    categories differ raises [AssertionError] (and moves no tons: the
    assertion is the first statement). *)
Theorem derive_ton_different_od_raises (h : list OD.t) (a b : nat)
    (oa ob : OD.t) (c : Q) :
  h !! a = Some oa -> h !! b = Some ob ->
  OD.id oa <> OD.id ob \/ OD.rail_category oa <> OD.rail_category ob ->
  exists msg, OD.derive_ton a b c h = Raise (AssertionError msg).
Proof.
  intros Ea Eb Hdiff.
  unfold OD.derive_ton, OD.get_id, OD.get_category.
  heap_get Ea. heap_get Eb. heap_get Ea. heap_get Eb.
  rewrite bind_eq. unfold Heap.lift.
  assert (F : String.eqb (OD.id oa) (OD.id ob)
              && bool_decide (OD.rail_category oa = OD.rail_category ob)
              = false).
  { destruct Hdiff as [Hid|Hcat].
    - apply String.eqb_neq in Hid. now rewrite Hid.
    - rewrite (bool_decide_eq_false_2 _ Hcat). apply andb_false_r. }
  rewrite F. cbn. eauto.
Qed.

Lemma derive_ton_different_od_raises_witness :
  exists msg,
    OD.derive_ton 0 1 (1 # 2) [sample_od; od_5_5]
    = Raise (AssertionError msg).
Proof.
  apply (derive_ton_different_od_raises [sample_od; od_5_5] 0 1
           sample_od od_5_5 (1 # 2)).
  - reflexivity.
  - reflexivity.
  - left. discriminate.
Defined.

(** X8.  [OD.derive_ton] has the shares of [OdTons.derive] (X3) but not
    its guard: for two distinct OD pairs with the same id and category it
    returns for every coefficient, with S = A.original + B.derived
    leaving B.derived = S * c and A.original = S * (1 - c); for c > 1 and
    S > 0 it leaves A with negative original tons, where
    [OdTons.derive] raises (X5). *)
Theorem derive_ton_unguarded (h : list OD.t) (a b : nat) (oa ob : OD.t)
    (c : Q) :
  a <> b -> h !! a = Some oa -> h !! b = Some ob ->
  OD.id oa = OD.id ob -> OD.rail_category oa = OD.rail_category ob ->
  let S := OD.original_ton oa + OD.derived_ton ob in
  exists td tr oa' ob' h',
    OD.derive_ton a b c h = Ok ((td, tr), h') /\
    h' !! a = Some oa' /\ h' !! b = Some ob' /\
    td == S * c - OD.derived_ton ob /\
    tr == OD.derived_ton oa /\
    OD.derived_ton ob' == S * c /\
    OD.original_ton oa' == S * (1 - c) /\
    OD.derived_ton oa' == 0 /\
    OD.original_ton ob' == OD.original_ton ob + OD.derived_ton oa /\
    (1 < c -> 0 < S -> OD.original_ton oa' < 0).
Proof.
  intros Hne Ea Eb Hid Hcat S.
  unfold OD.derive_ton, OD.get_id, OD.get_category, OD.get_original_ton,
    OD.get_derived_ton.
  heap_get Ea. heap_get Eb. heap_get Ea. heap_get Eb.
  rewrite bind_eq. unfold Heap.lift.
  rewrite Hid, String.eqb_refl, Hcat, bool_decide_eq_true_2 by reflexivity.
  cbn [andb py_assert].
  heap_get Ea. heap_get Eb. heap_get Eb. heap_get Ea.
  set (td := _ - OD.derived_ton ob).
  heap_modify Ea.
  match goal with |- context [<[a := ?x]> h] => set (a1 := x) end.
  assert (Ea1 : <[a:=a1]> h !! a = Some a1) by (eapply heap_insert_eq; eauto).
  heap_modify Ea1.
  match goal with
  | |- context [<[a := ?x]> (<[a := a1]> h)] => set (a2 := x)
  end.
  assert (Ea2 : <[a:=a2]> (<[a:=a1]> h) !! a = Some a2)
    by (eapply heap_insert_eq; eauto).
  assert (Eb2 : <[a:=a2]> (<[a:=a1]> h) !! b = Some ob)
    by (rewrite !heap_insert_ne by assumption; assumption).
  heap_modify Eb2.
  match goal with
  | |- context [<[b := ?x]> (<[a := a2]> _)] => set (b1 := x)
  end.
  assert (Eb3 : <[b:=b1]> (<[a:=a2]> (<[a:=a1]> h)) !! b = Some b1)
    by (eapply heap_insert_eq; eauto).
  heap_modify Eb3.
  match goal with
  | |- context [<[b := ?x]> (<[b := b1]> _)] => set (b2 := x)
  end.
  exists td, (OD.derived_ton oa), a2, b2, (<[b:=b2]> (<[b:=b1]>
    (<[a:=a2]> (<[a:=a1]> h)))).
  split; [reflexivity|].
  split.
  { rewrite !(heap_insert_ne _ b a) by congruence. exact Ea2. }
  split.
  { eapply heap_insert_eq; eauto. }
  subst td a2 a1 b2 b1 S. cbn.
  repeat split; try reflexivity; try lra.
  intros Hc Hs. nra.
Qed.

Lemma derive_ton_unguarded_witness :
  exists td tr oa' ob' h',
    OD.derive_ton 0 1 2 [sample_od; sample_od] = Ok ((td, tr), h') /\
    h' !! 0%nat = Some oa' /\ h' !! 1%nat = Some ob' /\
    OD.original_ton oa' < 0.
Proof.
  destruct (derive_ton_unguarded [sample_od; sample_od] 0 1
              sample_od sample_od 2)
    as (td & tr & oa' & ob' & h' & D & Ea & Eb & _ & _ & _ & _ & _ & _ & N);
    try reflexivity; try discriminate.
  exists td, tr, oa', ob', h'.
  repeat split; try assumption.
  apply N; reflexivity.
Defined.

(** ** Canonical ids *)

Lemma digit_facts c :
  is_digit c = true ->
  PyStr.is_space c = false /\ Ascii.eqb c "-" = false /\ c <> "-"%char /\
  c <> "+"%char.
Proof.
  destruct c as [[] [] [] [] [] [] [] []]; vm_compute; intros E;
    try discriminate E; repeat split; discriminate.
Qed.

Lemma digits_string_of_uint d : digits (NilEmpty.string_of_uint d) = true.
Proof. induction d; cbn; try reflexivity; exact IHd. Qed.

Lemma lstrip_digits s : digits s = true -> PyStr.lstrip s = s.
Proof.
  destruct s as [|c s]; [reflexivity|]. cbn. intros E.
  apply andb_prop in E as [E _].
  now rewrite (proj1 (digit_facts c E)).
Qed.

Lemma rstrip_digits s : digits s = true -> PyStr.rstrip s = s.
Proof.
  induction s as [|c s IH]; [reflexivity|]. cbn. intros E.
  apply andb_prop in E as [E Es]. rewrite (IH Es).
  destruct s; [|reflexivity].
  now rewrite (proj1 (digit_facts c E)).
Qed.

Lemma split_digits s : digits s = true -> PyStr.split "-" s = [s].
Proof.
  induction s as [|c s IH]; [reflexivity|]. cbn. intros E.
  apply andb_prop in E as [E Es]. rewrite (IH Es).
  destruct (digit_facts c E) as (_ & -> & _). reflexivity.
Qed.

Lemma split_join s1 s2 :
  digits s1 = true ->
  PyStr.split "-" (s1 ++ "-" ++ s2) = s1 :: PyStr.split "-" s2.
Proof.
  induction s1 as [|c s IH]; [reflexivity|]. intros E.
  cbn [digits] in E. apply andb_prop in E as [E Es].
  change (String c s ++ "-" ++ s2)%string
    with (String c (s ++ "-" ++ s2))%string.
  cbn [PyStr.split]. rewrite (IH Es).
  destruct (digit_facts c E) as (_ & -> & _). reflexivity.
Qed.

Lemma int_string_of_uint d :
  d <> Decimal.Nil ->
  PyStr.int (NilEmpty.string_of_uint d) = Ok (Z.of_uint d).
Proof.
  intros Hd. unfold PyStr.int.
  pose proof (digits_string_of_uint d) as Dg.
  rewrite (lstrip_digits _ Dg), (rstrip_digits _ Dg).
  pose proof (NilEmpty.usu d) as U.
  destruct (NilEmpty.string_of_uint d) as [|c s] eqn:E.
  - destruct d; cbn in E; congruence.
  - cbn in Dg. apply andb_prop in Dg as [Dc _].
    destruct (digit_facts c Dc) as (_ & _ & Hm & Hp).
    assert (G : match String c s with
                | String "-"%char r => (true, r)
                | String "+"%char r => (false, r)
                | _ => (false, String c s)
                end = (false, String c s)).
    { destruct c as [[] [] [] [] [] [] [] []]; try reflexivity;
        congruence. }
    rewrite G. now rewrite U.
Qed.

Lemma str_nonneg n :
  (0 <= n)%Z ->
  exists d, d <> Decimal.Nil /\ PyStr.str n = NilEmpty.string_of_uint d /\
            Z.of_uint d = n.
Proof.
  intros Hn. pose proof (DecimalZ.of_to n) as OT.
  unfold PyStr.str. destruct n as [|p|p]; [| |lia].
  - exists (Decimal.D0 Decimal.Nil). repeat split; discriminate.
  - exists (Pos.to_uint p). cbn in *.
    pose proof (Unsigned.to_uint_nonnil p) as NN.
    repeat split; [assumption| |assumption].
    destruct (Pos.to_uint p); [congruence|reflexivity..].
Qed.

Lemma digits_str n : (0 <= n)%Z -> digits (PyStr.str n) = true.
Proof.
  intros Hn. destruct (str_nonneg n Hn) as (d & _ & -> & _).
  apply digits_string_of_uint.
Qed.

Lemma int_str n : (0 <= n)%Z -> PyStr.int (PyStr.str n) = Ok n.
Proof.
  intros Hn. destruct (str_nonneg n Hn) as (d & Hd & -> & <-).
  now apply int_string_of_uint.
Qed.

Lemma ints_split_pair a b :
  (0 <= a)%Z -> (0 <= b)%Z ->
  PyStr.ints (PyStr.split "-" (PyStr.str a ++ "-" ++ PyStr.str b))
  = Ok [a; b].
Proof.
  intros Ha Hb.
  rewrite (split_join _ _ (digits_str a Ha)),
    (split_digits _ (digits_str b Hb)).
  cbn [PyStr.ints]. rewrite (int_str a Ha), (int_str b Hb). reflexivity.
Qed.

Lemma safe_id_pair a b :
  (0 <= a)%Z -> (0 <= b)%Z ->
  OD._get_safe_id (PyStr.str a ++ "-" ++ PyStr.str b)
  = Ok (canonical_id a b).
Proof.
  intros Ha Hb. unfold OD._get_safe_id, canonical_id.
  rewrite (ints_split_pair a b Ha Hb). cbn [rbind OD.nth_node lookup].
  cbn. destruct (Z.ltb_spec a b).
  - now rewrite Z.min_l, Z.max_r by lia.
  - now rewrite Z.min_r, Z.max_l by lia.
Qed.

(** X9.  [_get_safe_id] puts the lower node first: for node numbers
    a, b >= 0 the ids "a-b" and "b-a" both become "min-max", and the
    canonical id is a fixed point. *)
Theorem safe_id_canonical (a b : Z) :
  (0 <= a)%Z -> (0 <= b)%Z ->
  OD._get_safe_id (PyStr.str a ++ "-" ++ PyStr.str b)
    = Ok (canonical_id a b) /\
  OD._get_safe_id (PyStr.str b ++ "-" ++ PyStr.str a)
    = Ok (canonical_id a b) /\
  OD._get_safe_id (canonical_id a b) = Ok (canonical_id a b).
Proof.
  intros Ha Hb. split; [|split].
  - now apply safe_id_pair.
  - rewrite (safe_id_pair b a Hb Ha). unfold canonical_id.
    now rewrite Z.min_comm, Z.max_comm.
  - unfold canonical_id at 1. rewrite safe_id_pair by lia.
    unfold canonical_id.
    now rewrite Z.min_l, Z.max_r by lia.
Qed.

Lemma safe_id_canonical_witness :
  OD._get_safe_id "25-10" = Ok "10-25"%string /\
  OD._get_safe_id "10-25" = Ok "10-25"%string /\
  OD._get_safe_id "10-25" = Ok "10-25"%string.
Proof.
  apply (safe_id_canonical 25 10); lia.
Defined.

(** ** Every constructed OD pair has two nodes, lower node first *)

Lemma contains_lstrip c s :
  PyStr.contains c s = false -> PyStr.contains c (PyStr.lstrip s) = false.
Proof.
  induction s as [|x s IH]; [reflexivity|]. cbn [PyStr.lstrip].
  intros E. destruct (PyStr.is_space x); [|exact E].
  cbn in E. apply orb_false_elim in E as [_ E]. now apply IH.
Qed.

Lemma contains_rstrip c s :
  PyStr.contains c s = false -> PyStr.contains c (PyStr.rstrip s) = false.
Proof.
  induction s as [|x s IH]; [reflexivity|]. cbn [PyStr.rstrip].
  intros E. cbn in E. apply orb_false_elim in E as [Ex E].
  specialize (IH E).
  destruct (PyStr.rstrip s) eqn:R.
  - destruct (PyStr.is_space x); [reflexivity|]. cbn. now rewrite Ex.
  - change (PyStr.contains c (String x (String a s0)))
      with (Ascii.eqb x c || PyStr.contains c (String a s0)).
    now rewrite Ex, IH.
Qed.

Lemma of_uint_nonneg d : (0 <= Z.of_uint d)%Z.
Proof. unfold Z.of_uint. apply N2Z.is_nonneg. Qed.

Lemma int_nonneg s n :
  PyStr.contains "-" s = false -> PyStr.int s = Ok n -> (0 <= n)%Z.
Proof.
  intros E. apply contains_lstrip, contains_rstrip in E.
  unfold PyStr.int. destruct (PyStr.rstrip (PyStr.lstrip s)) as [|c r].
  - discriminate.
  - cbn in E. apply orb_false_elim in E as [Ec _].
    assert (G : exists w,
               match String c r with
               | String "-"%char r => (true, r)
               | String "+"%char r => (false, r)
               | _ => (false, String c r)
               end = (false, w)).
    { destruct c as [[] [] [] [] [] [] [] []]; try discriminate Ec;
        eexists; reflexivity. }
    destruct G as (w & ->).
    destruct w; [discriminate|].
    destruct (NilEmpty.uint_of_string _); [|discriminate].
    intros [= <-]. apply of_uint_nonneg.
Qed.

Lemma split_no_dash s :
  Forall (fun w => PyStr.contains "-" w = false) (PyStr.split "-" s).
Proof.
  induction s as [|c s IH]; cbn [PyStr.split].
  - repeat constructor.
  - destruct (Ascii.eqb c "-") eqn:E.
    + constructor; [reflexivity|exact IH].
    + destruct (PyStr.split "-" s) as [|w ws].
      * repeat constructor. cbn. now rewrite E.
      * inversion IH; subst. constructor; [|assumption].
        cbn. now rewrite E.
Qed.

Lemma ints_nonneg l :
  Forall (fun w => PyStr.contains "-" w = false) l ->
  forall ns, PyStr.ints l = Ok ns -> Forall (fun n => (0 <= n)%Z) ns.
Proof.
  induction 1 as [|w l Hw Hl IH]; cbn [PyStr.ints]; intros ns.
  - intros [= <-]. constructor.
  - destruct (PyStr.int w) as [n|] eqn:En; [|discriminate]. cbn [rbind].
    destruct (PyStr.ints l) as [ms|]; [|discriminate]. cbn [rbind].
    intros [= <-]. constructor; [eapply int_nonneg; eauto|now apply IH].
Qed.

Lemma safe_id_spec id sid :
  OD._get_safe_id id = Ok sid ->
  exists n0 n1,
    (0 <= n0 <= n1)%Z /\
    sid = (PyStr.str n0 ++ "-" ++ PyStr.str n1)%string /\
    PyStr.ints (PyStr.split "-" sid) = Ok [n0; n1].
Proof.
  unfold OD._get_safe_id.
  destruct (PyStr.ints (PyStr.split "-" id)) as [ns|] eqn:E; [|discriminate].
  pose proof (ints_nonneg _ (split_no_dash id) _ E) as Hpos.
  cbn [rbind]. destruct ns as [|a [|b ns]]; try discriminate.
  cbn. inversion Hpos as [|? ? Ha Hrest]; subst.
  inversion Hrest as [|? ? Hb _]; subst.
  destruct (Z.ltb_spec a b); intros [= <-].
  - exists a, b. repeat split; try lia. now apply ints_split_pair.
  - exists b, a. repeat split; try lia. now apply ints_split_pair.
Qed.

Lemma construct_spec (id : string) (ton : Q)
    (path gauge : option string) (dist : option Q) (cat : option Z)
    (o : OD.t) :
  OD.construct id ton path gauge dist cat = Ok o ->
  exists n0 n1,
    (0 <= n0 <= n1)%Z /\
    OD.nodes o = [n0; n1] /\
    OD.id o = (PyStr.str n0 ++ "-" ++ PyStr.str n1)%string /\
    OD._get_safe_id (OD.id o) = Ok (OD.id o) /\
    OD.is_intrazone o = (n0 =? n1)%Z /\
    OD.original_ton o = ton /\ OD.derived_ton o = 0 /\
    OD.links o = OD._create_links_list (OD.path_nodes o).
Proof.
  unfold OD.construct.
  destruct (OD._get_safe_id id) as [sid|] eqn:E; [|discriminate].
  destruct (safe_id_spec _ _ E) as (n0 & n1 & Hn & -> & N).
  cbn [rbind]. rewrite N. cbn [rbind].
  destruct (OD._get_path_nodes path [n0; n1]) as [pn|]; [|discriminate].
  cbn [rbind]. intros [= <-]. exists n0, n1.
  cbn [OD.nodes OD.id OD.original_ton OD.derived_ton OD.links OD.path_nodes].
  repeat split; try lia; try reflexivity.
  rewrite safe_id_pair by lia. unfold canonical_id.
  now rewrite Z.min_l, Z.max_r by lia.
Qed.

(** X10.  Every OD pair that the constructor returns, for any id string it
    accepts (spaces, a plus sign, further nodes after the second), has
    exactly two nodes n0 <= n1, both non-negative, the id "n0-n1" that
    [_get_safe_id] leaves as it is, is intrazone exactly when n0 = n1,
    holds the given tons as original tons and no derived tons, and has the
    links of its path nodes. *)
Theorem constructed_od_invariant (id : string) (ton : Q)
    (path gauge : option string) (dist : option Q) (cat : option Z)
    (o : OD.t) :
  OD.construct id ton path gauge dist cat = Ok o ->
  exists n0 n1,
    (0 <= n0 <= n1)%Z /\
    OD.nodes o = [n0; n1] /\
    OD.id o = (PyStr.str n0 ++ "-" ++ PyStr.str n1)%string /\
    OD._get_safe_id (OD.id o) = Ok (OD.id o) /\
    OD.is_intrazone o = (n0 =? n1)%Z /\
    OD.original_ton o = ton /\ OD.derived_ton o = 0 /\
    OD.links o = OD._create_links_list (OD.path_nodes o).
Proof. apply construct_spec. Qed.

Lemma constructed_od_invariant_witness :
  exists n0 n1,
    (0 <= n0 <= n1)%Z /\
    OD.nodes sample_od = [n0; n1] /\
    OD.id sample_od = (PyStr.str n0 ++ "-" ++ PyStr.str n1)%string /\
    OD._get_safe_id (OD.id sample_od) = Ok (OD.id sample_od) /\
    OD.is_intrazone sample_od = (n0 =? n1)%Z /\
    OD.original_ton sample_od = 1000 /\ OD.derived_ton sample_od = 0 /\
    OD.links sample_od = OD._create_links_list (OD.path_nodes sample_od).
Proof.
  apply (constructed_od_invariant " 3-1-7" 1000 (Some "1-3"%string)
           (Some "ancha"%string) (Some 100) (Some 1%Z) sample_od).
  vm_compute. reflexivity.
Defined.

(** ** [set_path] and the constructor *)

(** X11.  Constructing an OD pair without path and gauge and then calling
    [set_path(path, gauge)] is the same computation as constructing it
    with that path and gauge: same new reference, same heap, same
    exception when either raises. *)
Theorem set_path_after_init (id : string) (ton : Q)
    (path gauge : option string) (dist : option Q) (cat : option Z)
    (h : list OD.t) :
  Heap.bind (OD.__init__ id ton None None dist cat)
    (fun od => Heap.bind (OD.set_path od path gauge)
                 (fun _ => Heap.ret od)) h
  = OD.__init__ id ton path gauge dist cat h.
Proof.
  unfold OD.__init__. rewrite !bind_eq. unfold Heap.lift, OD.construct.
  destruct (OD._get_safe_id id) as [sid|]; [|reflexivity]. cbn [rbind].
  destruct (PyStr.ints (PyStr.split "-" sid)) as [ns|]; [|reflexivity].
  cbn [rbind OD._get_path_nodes]. unfold Heap.new.
  rewrite bind_eq. unfold OD.set_path.
  rewrite bind_eq.
  erewrite read_ok by (apply list_lookup_middle; reflexivity).
  cbn [OD.nodes OD.id OD.dist OD.original_ton OD.derived_ton
       OD.rail_category OD.deposit_cost OD.short_freight_cost
       OD.immo_value_cost].
  rewrite bind_eq. unfold Heap.lift.
  destruct (OD._get_path_nodes path ns) as [pn|]; [|reflexivity].
  cbn [rbind].
  erewrite write_ok by (apply list_lookup_middle; reflexivity).
  unfold Heap.ret. do 2 f_equal.
  rewrite insert_app_r_alt by lia. now rewrite Nat.sub_diag.
Qed.

(** ** Which OD pairs have an operable path *)

Lemma split_cons sep s : exists w ws, PyStr.split sep s = w :: ws.
Proof.
  induction s as [|c s (w & ws & IH)]; cbn [PyStr.split]; [eauto|].
  destruct (Ascii.eqb c sep); [eauto|]. rewrite IH. eauto.
Qed.

Lemma ints_length l ns : PyStr.ints l = Ok ns -> length ns = length l.
Proof.
  revert ns. induction l as [|w l IH]; cbn [PyStr.ints]; intros ns.
  - now intros [= <-].
  - destruct (PyStr.int w); [|discriminate]. cbn [rbind].
    destruct (PyStr.ints l) as [ms|]; [|discriminate]. cbn [rbind].
    intros [= <-]. cbn. f_equal. now apply IH.
Qed.

(** X12.  A constructed OD pair has an operable path exactly when it is
    not intrazone, path and gauge are non-empty strings and every piece of
    the path between dashes is an integer; its path nodes are then those
    integers and its links the links between consecutive ones.  A path
    that does not parse is swallowed by the bare [except]: the pair is
    built without path nodes and is not operable. *)
Theorem operable_path_iff (id : string) (ton : Q) (path gauge : option string)
    (dist : option Q) (cat : option Z) (o : OD.t) :
  OD.construct id ton path gauge dist cat = Ok o ->
  OD.has_operable_path o = true <->
  OD.is_intrazone o = false /\
  exists p g ns,
    path = Some p /\ p <> ""%string /\ gauge = Some g /\ g <> ""%string /\
    PyStr.ints (PyStr.split "-" p) = Ok ns /\
    OD.path_nodes o = Some ns /\ OD.links o = OD.links_of_nodes ns.
Proof.
  intros C.
  destruct (construct_spec _ _ _ _ _ _ _ C)
    as (n0 & n1 & Hn & Nodes & _ & _ & Intra & _ & _ & Links).
  revert C. unfold OD.construct.
  destruct (OD._get_safe_id id) as [sid|]; [|discriminate]. cbn [rbind].
  destruct (PyStr.ints (PyStr.split "-" sid)) as [ns0|]; [|discriminate].
  cbn [rbind].
  destruct (OD._get_path_nodes path ns0) as [pn|] eqn:P; [|discriminate].
  cbn [rbind]. intros [= <-].
  cbn [OD.nodes OD.links OD.path_nodes] in *. subst ns0.
  unfold OD.has_operable_path, OD.has_declared_path, OD.truthy_str.
  cbn [OD.path OD.gauge OD.path_nodes].
  rewrite Intra. revert P. unfold OD._get_path_nodes.
  destruct path as [p|].
  2:{ intros [= <-]. split; [discriminate|].
      intros (_ & p & g & ns & [=] & _). }
  destruct (String.eqb_spec p "") as [->|Hp].
  { intros [= <-]. cbn. split; [discriminate|].
    intros (_ & p & g & ns & [= <-] & F & _). congruence. }
  cbn [OD.nth_node lookup rbind]. cbn.
  destruct (n0 =? n1)%Z.
  { intros [= <-]. cbn. split; [now rewrite andb_false_r|].
    intros [F _]. discriminate F. }
  cbn [negb]. destruct (PyStr.ints (PyStr.split "-" p)) as [ns|] eqn:I.
  2:{ intros [= <-]. split; [now rewrite andb_false_r|].
      intros (_ & p' & g & ns & [= <-] & _ & _ & _ & I' & _). congruence. }
  intros [= <-].
  destruct (split_cons "-" p) as (w & ws & Sp).
  pose proof (ints_length _ _ I) as Len. rewrite Sp in Len.
  destruct ns as [|x ns]; [discriminate Len|].
  rewrite andb_true_r. split.
  - destruct gauge as [g|]; [|discriminate].
    destruct (String.eqb_spec g "") as [->|Hg]; [discriminate|].
    intros _. split; [reflexivity|].
    exists p, g, (x :: ns). repeat split; assumption.
  - intros (_ & p' & g & ns' & _ & _ & -> & Hg & _).
    apply String.eqb_neq in Hg. now rewrite Hg.
Qed.

Lemma operable_path_iff_witness :
  OD.has_operable_path sample_od = true <->
  OD.is_intrazone sample_od = false /\
  exists p g ns,
    Some "1-3"%string = Some p /\ p <> ""%string /\
    Some "ancha"%string = Some g /\ g <> ""%string /\
    PyStr.ints (PyStr.split "-" p) = Ok ns /\
    OD.path_nodes sample_od = Some ns /\
    OD.links sample_od = OD.links_of_nodes ns.
Proof.
  apply (operable_path_iff "1-3" 1000 (Some "1-3"%string)
           (Some "ancha"%string) (Some 100) (Some 1%Z) sample_od).
  vm_compute. reflexivity.
Defined.

(** ** The links of a path *)

Lemma link_id_sym a b : link_id a b = link_id b a.
Proof.
  unfold link_id.
  destruct (Z.ltb_spec a b), (Z.ltb_spec b a); try reflexivity; try lia.
  now replace b with a by lia.
Qed.

Lemma links_of_nodes_snoc ns a b :
  OD.links_of_nodes (ns ++ [a; b])
  = OD.links_of_nodes (ns ++ [a]) ++ [link_id a b].
Proof.
  induction ns as [|x ns IH]; [reflexivity|].
  destruct ns as [|y ns]; [reflexivity|].
  change (OD.links_of_nodes ((x :: y :: ns) ++ [a; b]))
    with (link_id x y :: OD.links_of_nodes ((y :: ns) ++ [a; b])).
  change (OD.links_of_nodes ((x :: y :: ns) ++ [a]))
    with (link_id x y :: OD.links_of_nodes ((y :: ns) ++ [a])).
  now rewrite IH.
Qed.

Lemma links_of_nodes_rev ns :
  OD.links_of_nodes (rev ns) = rev (OD.links_of_nodes ns).
Proof.
  induction ns as [|a ns IH]; [reflexivity|].
  destruct ns as [|b ns]; [reflexivity|].
  change (OD.links_of_nodes (a :: b :: ns))
    with (link_id a b :: OD.links_of_nodes (b :: ns)).
  cbn [rev] in *. rewrite <- IH.
  rewrite <- app_assoc. cbn [app].
  rewrite links_of_nodes_snoc. now rewrite link_id_sym.
Qed.

Lemma links_of_nodes_length ns :
  length (OD.links_of_nodes ns) = (length ns - 1)%nat.
Proof.
  induction ns as [|a ns IH]; [reflexivity|].
  destruct ns as [|b ns]; [reflexivity|].
  change (OD.links_of_nodes (a :: b :: ns))
    with (link_id a b :: OD.links_of_nodes (b :: ns)).
  cbn [length] in *. lia.
Qed.

(** X13.  A path with k nodes has k - 1 links (none for an empty or
    one-node path), and the reversed path has the same links in reverse
    order: a link id does not depend on the direction of travel. *)
Theorem path_links_reversed (ns : list Z) :
  OD._create_links_list (Some (rev ns))
    = rev (OD._create_links_list (Some ns)) /\
  length (OD._create_links_list (Some ns)) = (length ns - 1)%nat.
Proof.
  cbn [OD._create_links_list]. split.
  - apply links_of_nodes_rev.
  - apply links_of_nodes_length.
Qed.

(** ** [LinkTons]: slots that an update leaves alone *)

Lemma safe_dict_keys_frame (t : LinkTons.t) m c i m' c' i' :
  slot_tons (LinkTons._safe_dict_keys c i m t) m' c' i'
  = slot_tons t m' c' i'.
Proof.
  unfold LinkTons._safe_dict_keys, slot_tons, LinkTons.entry. cbv zeta.
  destruct (decide (m' = m)) as [->|Hm].
  2:{ rewrite lookup_insert_ne by congruence.
      destruct (t !! m) as [mv0|] eqn:Em.
      - case_bool_decide; [|reflexivity].
        now rewrite lookup_insert_ne by congruence.
      - now rewrite lookup_insert_ne by congruence. }
  rewrite lookup_insert_eq.
  assert (G : forall (mv : gmap Z (gmap string Q)),
    default 0
      (match (<[c := match default ∅ (match mv !! c with
                                         | Some _ => mv
                                         | None => <[c := ∅]> mv
                                         end !! c) !! i with
                    | Some _ =>
                        default ∅ (match mv !! c with
                                   | Some _ => mv
                                   | None => <[c := ∅]> mv
                                   end !! c)
                    | None =>
                        <[i := 0]>
                          (default ∅ (match mv !! c with
                                      | Some _ => mv
                                      | None => <[c := ∅]> mv
                                      end !! c))
                    end]>
               match mv !! c with
               | Some _ => mv
               | None => <[c := ∅]> mv
               end) !! c' with
       | Some cv => cv !! i'
       | None => None
       end)
    = default 0 (match mv !! c' with
                 | Some cv => cv !! i'
                 | None => None
                 end)).
  { intros mv. destruct (decide (c' = c)) as [->|Hc].
    - rewrite lookup_insert_eq.
      destruct (mv !! c) as [cv0|] eqn:Ec.
      + rewrite Ec. cbn [default from_option id].
        destruct (cv0 !! i) as [v0|] eqn:Ei; [reflexivity|].
        destruct (decide (i' = i)) as [->|Hi].
        * now rewrite lookup_insert_eq, Ei.
        * now rewrite lookup_insert_ne by congruence.
      + rewrite lookup_insert_eq. cbn [default from_option id].
        rewrite lookup_empty.
        destruct (decide (i' = i)) as [->|Hi].
        * now rewrite lookup_insert_eq.
        * rewrite lookup_insert_ne by congruence. now rewrite lookup_empty.
    - rewrite lookup_insert_ne by congruence.
      destruct (mv !! c) as [cv0|] eqn:Ec; [reflexivity|].
      now rewrite lookup_insert_ne by congruence. }
  destruct (t !! m) as [mv0|] eqn:Em.
  - case_bool_decide as Hsz.
    + apply map_size_empty_iff in Hsz. subst mv0.
      rewrite lookup_insert_eq. cbn [default from_option id].
      rewrite G. now rewrite !lookup_empty.
    + rewrite Em. cbn [default from_option id]. apply G.
  - rewrite lookup_insert_eq. cbn [default from_option id].
    rewrite G. now rewrite !lookup_empty.
Qed.

Lemma setitem_frame (t t' : LinkTons.t) m c i v :
  LinkTons.setitem t m c i v = Ok t' ->
  LinkTons.entry t' m c i = Some v /\
  forall m' c' i', (m', c', i') <> (m, c, i) ->
    LinkTons.entry t' m' c' i' = LinkTons.entry t m' c' i'.
Proof.
  unfold LinkTons.setitem, LinkTons.entry.
  destruct (t !! m) as [mv|] eqn:Em; [|discriminate].
  destruct (mv !! c) as [cv|] eqn:Ec; [|discriminate].
  intros [= <-]. split.
  - now rewrite !lookup_insert_eq.
  - intros m' c' i' Hne.
    destruct (decide (m' = m)) as [->|Hm].
    2:{ now rewrite lookup_insert_ne by congruence. }
    rewrite lookup_insert_eq, Em.
    destruct (decide (c' = c)) as [->|Hc].
    2:{ now rewrite lookup_insert_ne by congruence. }
    rewrite lookup_insert_eq, Ec.
    destruct (decide (i' = i)) as [->|Hi]; [congruence|].
    now rewrite lookup_insert_ne by congruence.
Qed.

Lemma add_ton_spec (t : LinkTons.t) ton c i m :
  exists t',
    LinkTons._add_ton ton c i m t = Ok t' /\
    slot_tons t' m c i = slot_tons t m c i + ton /\
    forall m' c' i', (m', c', i') <> (m, c, i) ->
      slot_tons t' m' c' i' = slot_tons t m' c' i'.
Proof.
  unfold LinkTons._add_ton.
  pose proof (safe_dict_keys_frame t m c i) as Fr.
  destruct (safe_dict_keys_spec t m c i) as (mv & cv & Es & Ei).
  rewrite Es in *.
  rewrite (getitem_prepared _ _ _ _ _ _ _ Ei). cbn [rbind].
  destruct (LinkTons.setitem _ m c i _) as [t'|] eqn:S.
  2:{ rewrite setitem_prepared in S. discriminate. }
  destruct (setitem_frame _ _ _ _ _ _ S) as (E1 & E2).
  exists t'. split; [reflexivity|]. split.
  - unfold slot_tons at 1. now rewrite E1.
  - intros m' c' i' Hne. unfold slot_tons at 1.
    rewrite (E2 m' c' i' Hne). apply Fr.
Qed.

(** X14.  [add_original(ton, c, i)] (true category and id) returns, adds
    [ton] to what [get_original(c, i)] reports, and changes neither a
    derived tonnage nor the original tonnage of any other category and OD
    id. *)
Theorem add_original_then_get (t : LinkTons.t) (ton : Q) (c : Z)
    (i : string) :
  c <> 0%Z -> i <> ""%string ->
  exists t',
    LinkTons.add_original ton c i t = Ok t' /\
    LinkTons.get_original t' (LinkTons.ArgOne c) (LinkTons.ArgOne i)
    == LinkTons.get_original t (LinkTons.ArgOne c) (LinkTons.ArgOne i) + ton
    /\
    (forall c' i', c' <> 0%Z -> i' <> ""%string ->
       LinkTons.get_derived t' (LinkTons.ArgOne c') (LinkTons.ArgOne i')
       == LinkTons.get_derived t (LinkTons.ArgOne c') (LinkTons.ArgOne i'))
    /\
    (forall c' i', c' <> 0%Z -> i' <> ""%string -> (c', i') <> (c, i) ->
       LinkTons.get_original t' (LinkTons.ArgOne c') (LinkTons.ArgOne i')
       == LinkTons.get_original t (LinkTons.ArgOne c') (LinkTons.ArgOne i')).
Proof.
  intros Hc Hi. unfold LinkTons.add_original.
  destruct (add_ton_spec t ton c i "original") as (t' & E & S & Fr).
  exists t'. split; [exact E|]. split; [|split].
  - rewrite !get_original_slot by assumption. now rewrite S.
  - intros c' i' Hc' Hi'. rewrite !get_derived_slot by assumption.
    rewrite Fr; [reflexivity|]. intros [=].
  - intros c' i' Hc' Hi' Hne. rewrite !get_original_slot by assumption.
    rewrite Fr; [reflexivity|]. intros [=]. congruence.
Qed.

Lemma add_original_then_get_witness :
  exists t',
    LinkTons.add_original 7 1 "1-3" ledger_5_and_small = Ok t' /\
    LinkTons.get_original t' (LinkTons.ArgOne 1%Z)
      (LinkTons.ArgOne "1-3"%string)
    == LinkTons.get_original ledger_5_and_small (LinkTons.ArgOne 1%Z)
         (LinkTons.ArgOne "1-3"%string) + 7.
Proof.
  destruct (add_original_then_get ledger_5_and_small 7 1 "1-3")
    as (t' & E & G & _); [discriminate|discriminate|].
  exists t'. split; assumption.
Defined.

(** ** [LinkTons]: adding tons and taking them out again *)



(** ** Folds over a dictionary, one key at a time *)

Lemma map_fold_ind_all {K} `{Countable K} {A} (P : gmap K A -> Prop) :
  P ∅ ->
  (forall i x m,
     m !! i = None ->
     (forall B (f : K -> A -> B -> B) b,
        map_fold f b (<[i := x]> m) = f i x (map_fold f b m)) ->
     P m -> P (<[i := x]> m)) ->
  forall m, P m.
Proof.
  intros H0 Hstep. apply map_fold_fmap_ind; [exact H0|].
  intros i x m Hi Hf IH. apply Hstep; [exact Hi| |exact IH].
  intros B f b. specialize (Hf A B f id b x).
  now rewrite map_fmap_id in Hf.
Qed.

Lemma sum_values_acc ids (cv : gmap string Q) acc :
  LinkTons.sum_values ids cv acc == acc + LinkTons.sum_values ids cv 0.
Proof.
  unfold LinkTons.sum_values. revert acc.
  induction cv as [|i x cv Hi Hf IH] using map_fold_ind_all; intros acc.
  - rewrite !map_fold_empty. lra.
  - rewrite !Hf. destruct (LinkTons.selected ids i).
    + rewrite (IH acc). lra.
    + apply IH.
Qed.

Lemma sum_categories_acc cats ids (mv : gmap Z (gmap string Q)) acc :
  LinkTons.sum_categories cats ids mv acc
  == acc + LinkTons.sum_categories cats ids mv 0.
Proof.
  unfold LinkTons.sum_categories. revert acc.
  induction mv as [|i x mv Hi Hf IH] using map_fold_ind_all; intros acc.
  - rewrite !map_fold_empty. lra.
  - rewrite !Hf. destruct (LinkTons.selected cats i).
    + rewrite sum_values_acc.
      rewrite (sum_values_acc ids x (map_fold _ 0 mv)).
      rewrite (IH acc). lra.
    + apply IH.
Qed.

Lemma get_all_modes_split cats ids (t : LinkTons.t) :
  (forall m mv, t !! m = Some mv ->
     m = "original"%string \/ m = "derived"%string) ->
  map_fold (fun (mode_id : string) mode_value acc =>
              if LinkTons.selected None mode_id
              then LinkTons.sum_categories cats ids mode_value acc else acc)
           0 t
  == mode_tons cats ids t "original" + mode_tons cats ids t "derived".
Proof.
  unfold mode_tons.
  induction t as [|m mv t Hm Hf IH] using map_fold_ind_all; intros Hdom.
  - rewrite map_fold_empty, !lookup_empty. lra.
  - rewrite Hf. cbn [LinkTons.selected]. rewrite sum_categories_acc.
    rewrite IH.
    2:{ intros m' mv' E. apply (Hdom m' mv').
        rewrite lookup_insert_ne; [exact E|]. congruence. }
    destruct (Hdom m mv (lookup_insert_eq _ _ _)) as [->| ->].
    + rewrite lookup_insert_eq, lookup_insert_ne by discriminate.
      rewrite Hm. lra.
    + rewrite lookup_insert_eq, lookup_insert_ne by discriminate.
      rewrite Hm. lra.
Qed.

Lemma get_one_mode (t : LinkTons.t) cats ids m :
  m <> ""%string ->
  LinkTons.get t cats ids (LinkTons.ArgOne m)
  = mode_tons (LinkTons.as_filter cats) (LinkTons.as_filter ids) t m.
Proof.
  intros Hm. unfold LinkTons.get, mode_tons. cbv zeta.
  assert (F : LinkTons.as_filter (LinkTons.ArgOne m) = Some [m]).
  { unfold LinkTons.as_filter, truthy, string_truthy.
    apply String.eqb_neq in Hm. now rewrite Hm. }
  rewrite F.
  apply (map_fold_selected_single
           (fun mode_value acc =>
              LinkTons.sum_categories (LinkTons.as_filter cats)
                (LinkTons.as_filter ids) mode_value acc)).
Qed.

(** X16.  In a ledger whose modes are "original" and "derived" only,
    [get] without a mode is [get_original] plus [get_derived], under any
    category and OD id filters. *)
Theorem total_is_original_plus_derived (t : LinkTons.t)
    (categories : LinkTons.arg Z) (id_ods : LinkTons.arg string) :
  (forall m mv, t !! m = Some mv ->
     m = "original"%string \/ m = "derived"%string) ->
  LinkTons.get t categories id_ods LinkTons.ArgNone
  == LinkTons.get_original t categories id_ods
     + LinkTons.get_derived t categories id_ods.
Proof.
  intros Hdom. unfold LinkTons.get_original, LinkTons.get_derived.
  rewrite !get_one_mode by discriminate.
  unfold LinkTons.get. cbv zeta. cbn [LinkTons.as_filter].
  now apply get_all_modes_split.
Qed.

Lemma total_is_original_plus_derived_witness :
  LinkTons.get ledger_5_and_small LinkTons.ArgNone LinkTons.ArgNone
    LinkTons.ArgNone
  == LinkTons.get_original ledger_5_and_small LinkTons.ArgNone
       LinkTons.ArgNone
     + LinkTons.get_derived ledger_5_and_small LinkTons.ArgNone
         LinkTons.ArgNone.
Proof.
  apply (total_is_original_plus_derived ledger_5_and_small).
  intros m mv E. unfold ledger_5_and_small in E.
  apply lookup_insert_Some in E as [[<- _]|[_ E]]; [now left|].
  apply lookup_insert_Some in E as [[<- _]|[_ E]]; [now right|].
  now rewrite lookup_empty in E.
Defined.

(** ** [get_by_category] *)

Lemma sum_categories_single k (mv : gmap Z (gmap string Q)) acc :
  LinkTons.sum_categories (Some [k]) None mv acc == acc + cat_tons mv k.
Proof.
  unfold LinkTons.sum_categories, cat_tons.
  rewrite (map_fold_selected_single
             (fun categ_value acc => LinkTons.sum_values None categ_value acc)).
  destruct (mv !! k); [apply sum_values_acc|lra].
Qed.

Lemma sum_categories_1_to_5 (mv : gmap Z (gmap string Q)) :
  (forall c cv, mv !! c = Some cv -> (1 <= c <= 5)%Z) ->
  LinkTons.sum_categories None None mv 0
  == cat_tons mv 1 + cat_tons mv 2 + cat_tons mv 3 + cat_tons mv 4
     + cat_tons mv 5.
Proof.
  unfold LinkTons.sum_categories, cat_tons.
  induction mv as [|c cv mv Hc Hf IH] using map_fold_ind_all; intros Hdom.
  - rewrite map_fold_empty, !lookup_empty. lra.
  - rewrite Hf. cbn [LinkTons.selected]. rewrite sum_values_acc.
    rewrite IH.
    2:{ intros c' cv' E. apply (Hdom c' cv').
        rewrite lookup_insert_ne; [exact E|]. congruence. }
    pose proof (Hdom c cv (lookup_insert_eq _ _ _)) as Hr.
    assert (Hcases : c = 1%Z \/ c = 2%Z \/ c = 3%Z \/ c = 4%Z \/ c = 5%Z)
      by lia.
    destruct Hcases as [->|[->|[->|[->| ->]]]];
      rewrite lookup_insert_eq, !lookup_insert_ne by discriminate;
      rewrite Hc; lra.
Qed.

Lemma get_one_category (t : LinkTons.t) k :
  k <> 0%Z ->
  LinkTons.get t (LinkTons.ArgOne k) LinkTons.ArgNone LinkTons.ArgNone
  = map_fold (fun (mode_id : string) mode_value acc =>
                LinkTons.sum_categories (Some [k]) None mode_value acc) 0 t.
Proof.
  intros Hk. unfold LinkTons.get. cbv zeta.
  unfold LinkTons.as_filter, truthy, Z_truthy.
  apply Z.eqb_neq in Hk. now rewrite Hk.
Qed.

(** X17.  [get_by_category] returns five numbers, and when every category
    of the ledger is one of 1 to 5 they add up to the total tons of the
    link. *)
Theorem get_by_category_adds_up (t : LinkTons.t) :
  (forall m mv c cv,
     t !! m = Some mv -> mv !! c = Some cv -> (1 <= c <= 5)%Z) ->
  length (LinkTons.get_by_category t) = 5%nat /\
  foldr Qplus 0 (LinkTons.get_by_category t)
  == LinkTons.get t LinkTons.ArgNone LinkTons.ArgNone LinkTons.ArgNone.
Proof.
  intros Hdom. split; [reflexivity|].
  unfold LinkTons.get_by_category. cbn [fmap list_fmap foldr].
  rewrite !get_one_category by discriminate.
  unfold LinkTons.get. cbv zeta. cbn [LinkTons.as_filter LinkTons.selected].
  induction t as [|m mv t Hm Hf IH] using map_fold_ind_all.
  - rewrite !map_fold_empty. lra.
  - rewrite !Hf. rewrite !sum_categories_single.
    rewrite (sum_categories_acc None None mv).
    rewrite (sum_categories_1_to_5 mv).
    2:{ intros c cv E. apply (Hdom m mv c cv); [|exact E].
        apply lookup_insert_eq. }
    rewrite <- IH.
    2:{ intros m' mv' c cv E1 E2. apply (Hdom m' mv' c cv); [|exact E2].
        rewrite lookup_insert_ne; [exact E1|]. congruence. }
    lra.
Qed.

Lemma get_by_category_adds_up_witness :
  length (LinkTons.get_by_category ledger_5_and_small) = 5%nat /\
  foldr Qplus 0 (LinkTons.get_by_category ledger_5_and_small)
  == LinkTons.get ledger_5_and_small LinkTons.ArgNone LinkTons.ArgNone
       LinkTons.ArgNone.
Proof.
  apply (get_by_category_adds_up ledger_5_and_small).
  intros m mv c cv E1 E2. unfold ledger_5_and_small in E1.
  apply lookup_insert_Some in E1 as [[_ <-]|[_ E1]].
  - apply lookup_insert_Some in E2 as [[<- _]|[_ E2]]; [lia|].
    now rewrite lookup_empty in E2.
  - apply lookup_insert_Some in E1 as [[_ <-]|[_ E1]].
    + apply lookup_insert_Some in E2 as [[<- _]|[_ E2]]; [lia|].
      now rewrite lookup_empty in E2.
    + now rewrite lookup_empty in E1.
Defined.

Section NetworkMore.
Context {L R : Type} `{LinkClass L} `{RollingMaterialClass R}.

(** ** [get_total_ton_km] *)


Lemma sum_od_ton_km_no_dist (h : list OD.t) ods :
  Forall (fun od => is_Some (h !! od)) ods ->
  Exists (fun od => exists o, h !! od = Some o /\ OD.dist o = None) ods ->
  forall acc, BaseModalNetwork.sum_od_ton_km h ods acc = Raise TypeError.
Proof.
  induction ods as [|od ods IH]; intros Hall Hex acc.
  - inversion Hex.
  - inversion Hall as [|? ? [o Ho] Hall']; subst.
    cbn [BaseModalNetwork.sum_od_ton_km].
    unfold BaseModalNetwork.od_ton_km. rewrite Ho.
    destruct (OD.dist o) as [d|] eqn:Ed; [|reflexivity].
    cbn [rbind]. apply IH; [exact Hall'|].
    inversion Hex as [? ? (o' & Ho' & Hd)|]; subst; [|assumption].
    congruence.
Qed.

(** X19.  An OD pair of the network whose distance is still [None] (the
    default of the constructor) makes [get_total_ton_km] raise
    [TypeError]. *)
Theorem total_ton_km_needs_distances (n : Network L R) (h : list OD.t)
    (od : nat) (o : OD.t) :
  Forall (fun od => is_Some (h !! od)) (BaseModalNetwork.iter_od_pairs n) ->
  od ∈ BaseModalNetwork.iter_od_pairs n ->
  h !! od = Some o -> OD.dist o = None ->
  BaseModalNetwork.get_total_ton_km n h = Raise TypeError.
Proof.
  intros Hall Hin Ho Hd.
  unfold BaseModalNetwork.get_total_ton_km, BaseModalNetwork.total_tk_od.
  rewrite sum_od_ton_km_no_dist; [reflexivity|exact Hall|].
  apply Exists_exists. exists od. split; [exact Hin|]. eauto.
Qed.

(** ** [idle_locomotives]: whole locomotives within the idle capacity *)


End NetworkMore.

Lemma total_ton_km_needs_distances_witness :
  BaseModalNetwork.get_total_ton_km
    (mkNetwork ∅ (<["5-5"%string := <[1%Z := 0%nat]> ∅]> ∅) ∅ None None None
       None : Network SampleLink SampleRollingMaterial) [od_5_5]
  = Raise TypeError.
Proof.
  apply (total_ton_km_needs_distances _ [od_5_5] 0%nat od_5_5).
  - vm_compute. repeat constructor. eexists. reflexivity.
  - vm_compute. repeat constructor.
  - reflexivity.
  - reflexivity.
Defined.


Section GetOdMore.
Context {L R : Type} `{LinkClass L} `{RollingMaterialClass R}.
Variable create_od_pair :
  Network L R -> string -> Z -> Heap.M OD.t (Network L R).

(** ** [get_od] *)

(** X21.  [get_od(id, category)]: an OD pair stored under the id and the
    category is returned as it is, and nothing is created, network and
    heap unchanged; for an id that the network does not have, the builder
    runs once and the pair it stored under the id and the category is
    returned ([KeyError] if it stored nothing under the id), and an
    exception of the builder is the exception of [get_od]. *)
Theorem get_od_cases (n : Network L R) (id_od : string) (category_od : Z)
    (h : list OD.t) :
  (forall od_pair od,
     od_pairs n !! id_od = Some od_pair ->
     od_pair !! category_od = Some od ->
     BaseModalNetwork.get_od create_od_pair n id_od category_od h
     = Ok ((n, od), h)) /\
  (forall n' h',
     od_pairs n !! id_od = None ->
     create_od_pair n id_od category_od h = Ok (n', h') ->
     (forall od_pair od,
        od_pairs n' !! id_od = Some od_pair ->
        od_pair !! category_od = Some od ->
        BaseModalNetwork.get_od create_od_pair n id_od category_od h
        = Ok ((n', od), h')) /\
     (od_pairs n' !! id_od = None ->
      BaseModalNetwork.get_od create_od_pair n id_od category_od h
      = Raise KeyError)) /\
  (forall e,
     od_pairs n !! id_od = None ->
     create_od_pair n id_od category_od h = Raise e ->
     BaseModalNetwork.get_od create_od_pair n id_od category_od h
     = Raise e).
Proof.
  split; [|split].
  - intros od_pair od. apply get_od_stored.
  - intros n' h' Hid Hc.
    assert (E0 : forall (k : Network L R
                             -> Heap.M OD.t (Network L R * nat)),
      Heap.bind
        match od_pairs n !! id_od with
        | None =>
            BaseModalNetwork._create_od_pair create_od_pair n id_od
              [category_od]
        | Some _ => Heap.ret n
        end k h = k n' h').
    { intros k. rewrite bind_eq, Hid.
      unfold BaseModalNetwork._create_od_pair. now rewrite Hc. }
    unfold BaseModalNetwork.get_od. rewrite E0. split.
    + intros od_pair od E1 E2.
      rewrite bind_eq. unfold Heap.lift at 1. rewrite E1.
      rewrite bind_eq, E2. unfold Heap.ret at 1.
      rewrite bind_eq. unfold Heap.lift. rewrite E1, E2. reflexivity.
    + intros E1. rewrite bind_eq. unfold Heap.lift at 1. now rewrite E1.
  - intros e Hid Hc. unfold BaseModalNetwork.get_od.
    rewrite bind_eq, Hid. unfold BaseModalNetwork._create_od_pair.
    now rewrite Hc.
Qed.

End GetOdMore.

Lemma get_od_cases_witness :
  BaseModalNetwork.get_od sample_create_od_pair sample_rail_network
    "1-3" 1 sample_heap = Ok ((sample_rail_network, 0%nat), sample_heap) /\
  exists n' h',
    sample_create_od_pair sample_rail_network "2-7" 2 sample_heap
    = Ok (n', h') /\
    BaseModalNetwork.get_od sample_create_od_pair sample_rail_network
      "2-7" 2 sample_heap = Ok ((n', 1%nat), h').
Proof.
  split.
  - destruct (get_od_cases sample_create_od_pair sample_rail_network
                "1-3" 1 sample_heap) as (K & _).
    apply (K (<[1%Z := 0%nat]> ∅)); reflexivity.
  - destruct (sample_create_od_pair sample_rail_network "2-7" 2 sample_heap)
      as [[n' h']|e] eqn:E.
    + exists n', h'. split; [reflexivity|].
      destruct (get_od_cases sample_create_od_pair sample_rail_network
                  "2-7" 2 sample_heap) as (_ & K & _).
      destruct (K n' h' eq_refl E) as (K1 & _).
      injection E as <- <-.
      apply (K1 (<[2%Z := 1%nat]> ∅)); reflexivity.
    + discriminate E.
Defined.

(** ** [iter_od_pairs(limit)] and [iter_links(limit)] *)

Lemma iter_inner_spec {A} (limit : option Z) (values : list A) (counter : Z) :
  BaseModalNetwork.iter_inner limit values counter
  = match limit with
    | Some k =>
        if (k =? 0)%Z then ((counter + Z.of_nat (length values))%Z, values)
        else
          let yielded := take (Z.to_nat (k - counter)) values in
          ((counter + Z.of_nat (length yielded))%Z, yielded)
    | None => ((counter + Z.of_nat (length values))%Z, values)
    end.
Proof.
  revert counter. induction values as [|v values IH]; intros counter.
  - cbn [BaseModalNetwork.iter_inner length]. destruct limit as [k|].
    + destruct (k =? 0)%Z; rewrite ?take_nil; cbn; f_equal; lia.
    + f_equal; lia.
  - cbn [BaseModalNetwork.iter_inner]. rewrite IH.
    unfold BaseModalNetwork.limit_reached. destruct limit as [k|].
    + destruct (Z.eqb_spec k 0) as [->|Hk]; cbn [negb andb].
      * cbn [length]. f_equal. lia.
      * destruct (Z.leb_spec k counter) as [Hle|Hgt].
        -- replace (Z.to_nat (k - counter)) with 0%nat by lia.
           cbn. f_equal. lia.
        -- cbv zeta.
           replace (Z.to_nat (k - counter))
             with (S (Z.to_nat (k - (counter + 1)))) by lia.
           cbn [take length]. f_equal. lia.
    + cbn [length]. f_equal. lia.
Qed.

Lemma iter_outer_spec {A} (limit : option Z) (groups : list (list A))
    (counter : Z) :
  BaseModalNetwork.iter_outer limit groups counter
  = match limit with
    | Some k =>
        if (k =? 0)%Z then concat groups
        else take (Z.to_nat (k - counter)) (concat groups)
    | None => concat groups
    end.
Proof.
  revert counter. induction groups as [|g groups IH]; intros counter.
  - cbn. destruct limit as [k|]; [|reflexivity].
    destruct (k =? 0)%Z; [reflexivity|]. now rewrite take_nil.
  - cbn [BaseModalNetwork.iter_outer concat]. rewrite iter_inner_spec.
    destruct limit as [k|].
    + destruct (k =? 0)%Z eqn:Ek.
      * cbv beta iota. rewrite IH. reflexivity.
      * cbv beta iota zeta. rewrite IH. rewrite take_app. f_equal. f_equal.
        rewrite length_take. lia.
    + cbv beta iota. now rewrite IH.
Qed.

Lemma bind_as_concat {A B} (f : A -> list B) (l : list A) :
  l ≫= f = concat (f <$> l).
Proof. induction l as [|x l IH]; [reflexivity|]. cbn. now rewrite IH. Qed.

Section IterLimit.
Context {L R : Type} `{LinkClass L} `{RollingMaterialClass R}.

(** X22.  [iter_od_pairs(limit)] and [iter_links(limit)] yield the first
    [limit] items of the unlimited iteration for every limit other than 0
    (nothing for a negative limit); a limit of 0 is no limit, like
    [None]. *)
Theorem iter_limit_takes_first (n : Network L R) :
  BaseModalNetwork.iter_od_pairs_limit n None
    = BaseModalNetwork.iter_od_pairs n /\
  BaseModalNetwork.iter_links_limit n None = BaseModalNetwork.iter_links n /\
  BaseModalNetwork.iter_od_pairs_limit n (Some 0%Z)
    = BaseModalNetwork.iter_od_pairs n /\
  BaseModalNetwork.iter_links_limit n (Some 0%Z)
    = BaseModalNetwork.iter_links n /\
  forall k : Z, k <> 0%Z ->
    BaseModalNetwork.iter_od_pairs_limit n (Some k)
      = take (Z.to_nat k) (BaseModalNetwork.iter_od_pairs n) /\
    BaseModalNetwork.iter_links_limit n (Some k)
      = take (Z.to_nat k) (BaseModalNetwork.iter_links n).
Proof.
  unfold BaseModalNetwork.iter_od_pairs_limit,
    BaseModalNetwork.iter_links_limit,
    BaseModalNetwork.iter_od_pairs, BaseModalNetwork.iter_links.
  rewrite !bind_as_concat.
  do 4 (split; [now rewrite iter_outer_spec|]).
  intros k Hk. apply Z.eqb_neq in Hk.
  rewrite !iter_outer_spec, Hk, !Z.sub_0_r. split; reflexivity.
Qed.

End IterLimit.

Lemma iter_limit_takes_first_witness :
  BaseModalNetwork.iter_od_pairs_limit sample_rail_network (Some 1%Z)
    = take 1 (BaseModalNetwork.iter_od_pairs sample_rail_network) /\
  BaseModalNetwork.iter_links_limit sample_rail_network (Some 1%Z)
    = take 1 (BaseModalNetwork.iter_links sample_rail_network).
Proof.
  destruct (iter_limit_takes_first sample_rail_network)
    as (_ & _ & _ & _ & K).
  apply (K 1%Z). lia.
Defined.

Section PathDistance.
Context {L R : Type} `{LinkClass L} `{RollingMaterialClass R}.

(** ** [get_path_distance] and [calc_distance] *)

Lemma construct_and_path (id : string) (ton : Q) (path gauge : option string)
    (dist : option Q) (cat : option Z) (o : OD.t) :
  OD.construct id ton path gauge dist cat = Ok o ->
  exists p,
    Path.__init__ id path gauge = Ok p /\
    Path.id p = OD.id o /\ Path.links p = OD.links o /\
    Path.gauge p = OD.gauge o /\ Path.path p = OD.path o /\
    Path.nodes p = OD.nodes o /\ Path.path_nodes p = OD.path_nodes o.
Proof.
  unfold OD.construct, Path.__init__.
  destruct (OD._get_safe_id id) as [sid|]; [|discriminate]. cbn [rbind].
  destruct (PyStr.ints (PyStr.split "-" sid)) as [ns|]; [|discriminate].
  cbn [rbind].
  destruct (OD._get_path_nodes path ns) as [pn|]; [|discriminate].
  cbn [rbind]. intros [= <-]. eexists. split; [reflexivity|].
  repeat split.
Qed.

(** X23.  The two ways to the distance of an OD pair agree.  For an OD
    pair built from (id, path, gauge), [get_path_distance] is 0 without
    looking at the stored paths when the pair is intrazone (and so is its
    own [calc_distance]); raises [KeyError] when the pair is not
    intrazone and no path is stored under its id; and, when the stored
    path was built from the same (id, path, gauge), is the distance that
    [OD.calc_distance] computes from the same link table. *)
Theorem path_distance_agrees (n : Network L R) (paths : gmap string Path.t)
    (id : string) (ton : Q) (path gauge : option string) (dist : option Q)
    (cat : option Z) (o : OD.t) :
  OD.construct id ton path gauge dist cat = Ok o ->
  (OD.is_intrazone o = true ->
   BaseModalNetwork.get_path_distance n paths o = Ok 0 /\
   OD.path_distance (links n) o = 0) /\
  (OD.is_intrazone o = false -> paths !! OD.id o = None ->
   BaseModalNetwork.get_path_distance n paths o = Raise KeyError) /\
  (forall p,
     Path.__init__ id path gauge = Ok p -> paths !! OD.id o = Some p ->
     BaseModalNetwork.get_path_distance n paths o
     = Ok (OD.path_distance (links n) o)).
Proof.
  intros C.
  destruct (construct_spec _ _ _ _ _ _ _ C)
    as (n0 & n1 & Hn & Nodes & _ & _ & Intra & _ & _ & Links).
  destruct (construct_and_path _ _ _ _ _ _ _ C)
    as (p0 & P0 & _ & PL & PG & _).
  assert (Z0 : OD.is_intrazone o = true -> OD.path_distance (links n) o = 0).
  { intros Hi. unfold OD.path_distance. rewrite Links.
    revert C. unfold OD.construct.
    destruct (OD._get_safe_id id) as [sid|]; [|discriminate]. cbn [rbind].
    destruct (PyStr.ints (PyStr.split "-" sid)) as [ns|]; [|discriminate].
    cbn [rbind].
    destruct (OD._get_path_nodes path ns) as [pn|] eqn:P; [|discriminate].
    cbn [rbind]. intros [= <-]. cbn [OD.path_nodes OD.nodes] in *.
    subst ns. rewrite Intra in Hi.
    revert P. unfold OD._get_path_nodes.
    destruct path as [s|]; [|now intros [= <-]].
    destruct (String.eqb s ""); [now intros [= <-]|].
    cbn [OD.nth_node lookup rbind]. cbn. rewrite Hi. cbn.
    now intros [= <-]. }
  unfold BaseModalNetwork.get_path_distance, BaseModalNetwork.get_path.
  split; [|split].
  - intros Hi. rewrite Hi. split; [reflexivity|now apply Z0].
  - intros Hi Hp. now rewrite Hi, Hp.
  - intros p Hp Hin. rewrite Hin. rewrite P0 in Hp. injection Hp as <-.
    destruct (OD.is_intrazone o) eqn:Hi.
    + now rewrite Z0.
    + cbn [rbind]. f_equal. unfold Path.calc_distance, OD.path_distance.
      now rewrite PL, PG.
Qed.

(** ** [has_railway_path] *)

Lemma contains_split s :
  PyStr.contains "-" s = true ->
  (2 <= length (PyStr.split "-" s))%nat.
Proof.
  induction s as [|c s IH]; [discriminate|].
  cbn [PyStr.contains PyStr.split].
  destruct (split_cons "-" s) as (w & ws & Sp).
  destruct (Ascii.eqb c "-") eqn:E.
  - intros _. rewrite Sp. cbn. lia.
  - cbn [orb]. intros Hc. specialize (IH Hc). rewrite Sp in *. exact IH.
Qed.

(** X24.  [has_railway_path(od)] is [False] when no path is stored under
    the id of the OD pair, and raises [TypeError] when the stored path
    string is [None].  When it is [True] for a stored path built by
    [Path(id, path, gauge)] whose nodes parsed, the gauge is a non-empty
    string and the path has at least one link, one per dash of the path
    string. *)
Theorem has_railway_path_cases (paths : gmap string Path.t) (o : OD.t) :
  (paths !! OD.id o = None ->
   RailwayNetwork.has_railway_path paths o = Ok false) /\
  (forall p, paths !! OD.id o = Some p -> Path.path p = None ->
     RailwayNetwork.has_railway_path paths o = Raise TypeError) /\
  (forall p id s gauge ns,
     paths !! OD.id o = Some p ->
     Path.__init__ id (Some s) gauge = Ok p ->
     RailwayNetwork.has_railway_path paths o = Ok true ->
     Path.path_nodes p = Some ns ->
     OD.truthy_str gauge = true /\
     Path.links p <> [] /\
     S (length (Path.links p)) = length (PyStr.split "-" s)).
Proof.
  unfold RailwayNetwork.has_railway_path. split; [|split].
  - now intros ->.
  - intros p -> ->. reflexivity.
  - intros p id s gauge ns -> Hp.
    revert Hp. unfold Path.__init__.
    destruct (OD._get_safe_id id) as [sid|]; [|discriminate]. cbn [rbind].
    destruct (PyStr.ints (PyStr.split "-" sid)) as [ns0|]; [|discriminate].
    cbn [rbind].
    destruct (OD._get_path_nodes (Some s) ns0) as [pn|] eqn:P;
      [|discriminate].
    cbn [rbind]. intros [= <-].
    cbn [Path.path Path.gauge Path.path_nodes Path.links rbind].
    intros [= Ht] ->. apply andb_prop in Ht as [Ht Hc].
    apply andb_prop in Ht as [_ Hg].
    assert (I : PyStr.ints (PyStr.split "-" s) = Ok ns).
    { revert P. unfold OD._get_path_nodes.
      destruct (String.eqb s ""); [discriminate|].
      destruct (OD.nth_node ns0 0); [|discriminate]. cbn [rbind].
      destruct (OD.nth_node ns0 1); [|discriminate]. cbn [rbind].
      destruct (negb _); [|discriminate].
      destruct (PyStr.ints (PyStr.split "-" s)); [|discriminate].
      now intros [= <-]. }
    pose proof (ints_length _ _ I) as Len.
    pose proof (contains_split _ Hc) as Two.
    pose proof (links_of_nodes_length ns) as LL.
    cbn [OD._create_links_list].
    split; [exact Hg|]. split.
    + intros E. rewrite E in LL. cbn in LL. lia.
    + lia.
Qed.

End PathDistance.

Lemma path_distance_agrees_witness :
  BaseModalNetwork.get_path_distance sample_rail_network
    (<["1-3"%string := sample_path]> ∅) sample_od
  = Ok (OD.path_distance (links sample_rail_network) sample_od).
Proof.
  destruct (path_distance_agrees sample_rail_network
              (<["1-3"%string := sample_path]> ∅) "1-3" 1000
              (Some "1-3"%string) (Some "ancha"%string) (Some 100)
              (Some 1%Z) sample_od) as (_ & _ & K).
  - vm_compute. reflexivity.
  - apply (K sample_path).
    + vm_compute. reflexivity.
    + reflexivity.
Defined.

Lemma has_railway_path_cases_witness :
  OD.truthy_str (Some "ancha"%string) = true /\
  Path.links sample_path <> [] /\
  S (length (Path.links sample_path)) = length (PyStr.split "-" "1-3").
Proof.
  destruct (has_railway_path_cases (<["1-3"%string := sample_path]> ∅)
              sample_od) as (_ & _ & K).
  apply (K sample_path "1-3"%string "1-3"%string (Some "ancha"%string)
           [1%Z; 3%Z]).
  - reflexivity.
  - vm_compute. reflexivity.
  - vm_compute. reflexivity.
  - reflexivity.
Defined.

(** ** [_calculate_mobility_od]: links missing from the table *)

Section MobilityOd.
Context {L R : Type} `{LinkClass L} `{RollingMaterialClass R}.
Variable rm_add_freight_service : Q -> option Q -> R -> result (R * Q).
Variable link_add_idle_cap : Q -> L -> result L.
Hypothesis add_idle_cap_returns :
  forall x l, exists l', link_add_idle_cap x l = Ok l'.






End MobilityOd.


(** ** Totals of a cost breakdown *)

Lemma sum_values_insert (RV : Breakdown) k v :
  RV !! k = None -> sum_values (<[k := v]> RV) == sum_values RV + v.
Proof.
  intros Hk. unfold sum_values.
  apply (map_fold_insert Qeq (fun _ v acc => acc + v) 0 k v RV).
  - intros j z x y E. now rewrite E.
  - intros j1 j2 z1 z2 y _ _ _. ring.
  - exact Hk.
Qed.

Section CostMore.
Context {L R : Type} `{LinkClass L} `{RollingMaterialClass R}.

(** X26.  A rail mobility breakdown that is returned has exactly six
    entries: the five components, each the result of its own method, and
    "total_mobility", their sum. *)
Theorem rail_total_mobility_is_sum (c : NetworkCost L R) (RV : Breakdown) :
  RailwayNetworkCost.cost_mobility c = Ok RV ->
  exists w l f m p t,
    RailwayNetworkCost._cost_eac_wagon c = Ok w /\
    RailwayNetworkCost._cost_eac_locom c = Ok l /\
    RailwayNetworkCost._cost_fuel_and_lub c = Ok f /\
    RailwayNetworkCost._cost_mobility_maintenance c = Ok m /\
    RailwayNetworkCost._cost_manpower c = Ok p /\
    RV !! "eac_wagon"%string = Some w /\
    RV !! "eac_locom"%string = Some l /\
    RV !! "fuel_and_lub"%string = Some f /\
    RV !! "maintenance"%string = Some m /\
    RV !! "manpower"%string = Some p /\
    RV !! "total_mobility"%string = Some t /\
    t == w + l + f + m + p /\
    size RV = 6%nat.
Proof.
  unfold RailwayNetworkCost.cost_mobility. cbv zeta.
  destruct (RailwayNetworkCost._cost_eac_wagon c) as [w|]; [|discriminate].
  cbn [rbind].
  destruct (RailwayNetworkCost._cost_eac_locom c) as [l|]; [|discriminate].
  cbn [rbind].
  destruct (RailwayNetworkCost._cost_fuel_and_lub c) as [f|];
    [|discriminate].
  cbn [rbind].
  destruct (RailwayNetworkCost._cost_mobility_maintenance c) as [m|];
    [|discriminate].
  cbn [rbind].
  destruct (RailwayNetworkCost._cost_manpower c) as [p|]; [|discriminate].
  cbn [rbind]. intros [= <-].
  eexists w, l, f, m, p, _.
  repeat (split; [reflexivity|]).
  split.
  - rewrite !sum_values_insert by reflexivity.
    change (sum_values ∅) with 0. ring.
  - reflexivity.
Qed.

(** X27.  The guard of the rail cost methods: for a cost object whose
    total ton-km is at most 0.1, every entry of the mobility breakdown and
    of the infrastructure breakdown is 0, the totals included, whenever
    the methods return. *)
Theorem rail_costs_guarded (py_pow : Q -> Q -> result Q)
    (c : NetworkCost L R) :
  total_ton_km c <= 1 # 10 ->
  (forall RV, RailwayNetworkCost.cost_mobility c = Ok RV ->
     forall k v, RV !! k = Some v -> v == 0) /\
  (forall RV table,
     RailwayNetworkCost.cost_infrast py_pow c = Ok (RV, table) ->
     forall k v, RV !! k = Some v -> v == 0).
Proof.
  intros Hle. split.
  - intros RV. now apply rail_mobility_guard.
  - intros RV table. now apply rail_infrast_guard.
Qed.

(** X28.  For a road cost object built for a network and asked for the
    mobility costs of the same network, the breakdown has the single entry
    "total_mobility" and its value is the parameter [mobility_cost_tk],
    whatever the traffic; the total ton-km it divides by is never 0. *)
Theorem road_mobility_is_parameter (n : Network L R) (h : list OD.t)
    (c : NetworkCost L R) (mobility_cost_tk : Q) :
  BaseNetworkCost.__init__ n h = Ok c ->
  params n !! "mobility_cost_tk"%string = Some mobility_cost_tk ->
  exists v,
    RoadwayNetworkCost.cost_mobility c h
    = Ok (<["total_mobility"%string := v]> ∅)
    /\ v == mobility_cost_tk /\ ~ total_ton_km c == 0.
Proof.
  unfold BaseNetworkCost.__init__.
  destruct (BaseModalNetwork.get_total_ton_km n h) as [t|] eqn:T;
    [|discriminate].
  cbn [rbind]. intros [= <-] Hp.
  assert (Ht : ~ t == 0).
  { apply get_total_ton_km_returns in T as (tk & _ & Hz & Habs & ->).
    intros E. rewrite E in Habs.
    assert (E0 : 0 / tk - 1 == - (1)) by (field; exact Hz).
    rewrite E0 in Habs. revert Habs. cbn. intros Habs.
    apply Qlt_not_le in Habs. apply Habs. discriminate. }
  unfold RoadwayNetworkCost.cost_mobility, RoadwayNetworkCost._cost_mobility,
    BaseNetworkCost.param, BaseModalNetwork.param.
  cbn [rn total_ton_km]. rewrite Hp. cbn [rbind]. rewrite T. cbn [rbind].
  rewrite (py_div_ok _ _ Ht). cbn [rbind].
  eexists. split; [reflexivity|]. split; [|exact Ht].
  field. exact Ht.
Qed.

(** ** The number of detours of a link *)

(** X29.  The number of detours of a link, for positive turnout frequency,
    maximal density and distance: dist / turnout_freq below the maximal
    density; gross_tk / (turnout_freq * max_density) from the maximal
    density on, whatever the length of the link; never fewer than
    dist / turnout_freq. *)
Theorem number_of_detours (c : NetworkCost L R) (gross_tk dist : Q)
    (freq max_density : Q) :
  BaseNetworkCost.param c "turnout_freq" = Ok freq ->
  BaseNetworkCost.param c "turnout_freq_max_density" = Ok max_density ->
  0 < freq -> 0 < max_density -> 0 < dist ->
  exists num,
    RailwayNetworkCost._calc_number_of_detours c gross_tk dist = Ok num /\
    (gross_tk / dist < max_density -> num == dist / freq) /\
    (max_density <= gross_tk / dist ->
     num == gross_tk / (freq * max_density)) /\
    dist / freq <= num.
Proof.
  intros Ef Ed Hf Hd Hdist.
  unfold RailwayNetworkCost._calc_number_of_detours.
  rewrite Ef. cbn [rbind]. rewrite Ed. cbn [rbind]. cbv zeta.
  rewrite (py_div_ok gross_tk dist) by lra. cbn [rbind].
  destruct (Qltb (gross_tk / dist) max_density) eqn:Hlt; cbn [negb rbind].
  - apply Qltb_lt in Hlt. rewrite py_div_ok by lra.
    eexists. split; [reflexivity|]. split; [reflexivity|]. split; [lra|].
    apply Qle_refl.
  - apply Qltb_ge in Hlt.
    assert (Hr : 0 < gross_tk / dist / max_density).
    { apply Qlt_shift_div_l; lra. }
    rewrite (py_div_ok (gross_tk / dist) max_density) by lra. cbn [rbind].
    assert (Ht : 0 < freq / (gross_tk / dist / max_density)).
    { apply Qlt_shift_div_l; lra. }
    rewrite (py_div_ok freq) by lra. cbn [rbind].
    rewrite py_div_ok by lra.
    eexists. split; [reflexivity|].
    assert (Hg : 0 < gross_tk).
    { assert (E : gross_tk == gross_tk / dist * dist) by (field; lra).
      rewrite E. apply Qmult_lt_0_compat; lra. }
    assert (Eq : dist / (freq / (gross_tk / dist / max_density))
                 == gross_tk / (freq * max_density)).
    { field. repeat split; lra. }
    split; [intros; lra|]. split; [intros _; exact Eq|].
    rewrite Eq.
    apply Qle_shift_div_l; [nra|].
    assert (E2 : dist / freq * (freq * max_density) == dist * max_density)
      by (field; lra).
    rewrite E2.
    assert (E3 : gross_tk == gross_tk / dist * dist) by (field; lra).
    rewrite E3. nra.
Qed.

(** X30.  A loaded rail link of length 0 stops the infrastructure costing:
    the step of [cost_infrast] for a link with tons and distance 0 raises
    [ZeroDivisionError] (the density gross_tk / dist of
    [_calc_number_of_detours]). *)
Theorem zero_length_link_cannot_be_costed (py_pow : Q -> Q -> result Q)
    (c : NetworkCost L R) (wc ww lc lw : Q) (RV : Breakdown)
    (table : LinkTable L) (key : string * string) (by_gauge : gmap string L)
    (link : L) (gross_tk freq max_density : Q) :
  table !! key.1 = Some by_gauge -> by_gauge !! key.2 = Some link ->
  0 < link_get_ton link -> link_get_dist link == 0 ->
  link_get_gross_ton_km wc ww lc lw link = Ok gross_tk ->
  BaseNetworkCost.param c "turnout_freq" = Ok freq ->
  BaseNetworkCost.param c "turnout_freq_max_density" = Ok max_density ->
  RailwayNetworkCost.cost_infrast_link py_pow c wc ww lc lw (RV, table) key
  = Raise ZeroDivisionError.
Proof.
  intros Et Eg Hton Hdist Egross Ef Ed.
  unfold RailwayNetworkCost.cost_infrast_link. rewrite Et, Eg.
  apply Qltb_lt in Hton. rewrite Hton. rewrite Egross. cbn [rbind].
  unfold RailwayNetworkCost._cost_detour,
    RailwayNetworkCost._calc_number_of_detours.
  rewrite Ef. cbn [rbind]. rewrite Ed. cbn [rbind]. cbv zeta.
  now rewrite (py_div_zero _ _ Hdist).
Qed.

End CostMore.

(** The rail mobility costing returns once parameters and fleets are
    there: its divisions are guarded. *)
Section CostReturns.
Context {L R : Type} `{LinkClass L} `{RollingMaterialClass R}.

Lemma rail_cost_mobility_returns (c : NetworkCost L R)
    (p1 p2 p3 p4 p5 p6 p7 : Q) (w l : R) :
  params (rn c) !! "wagon_eac"%string = Some p1 ->
  params (rn c) !! "locomotive_eac"%string = Some p2 ->
  params (rn c) !! "fuel_cost_by_km"%string = Some p3 ->
  params (rn c) !! "lubricants_fuel_ratio"%string = Some p4 ->
  params (rn c) !! "maintenance_by_locomotive"%string = Some p5 ->
  params (rn c) !! "maintenance_by_wagon"%string = Some p6 ->
  params (rn c) !! "manpower_cost_by_loc_hour"%string = Some p7 ->
  wagons (rn c) = Some w -> locoms (rn c) = Some l ->
  exists RV, RailwayNetworkCost.cost_mobility c = Ok RV.
Proof.
  intros E1 E2 E3 E4 E5 E6 E7 Ew El.
  unfold RailwayNetworkCost.cost_mobility, RailwayNetworkCost._cost_eac_wagon,
    RailwayNetworkCost._cost_eac_locom, RailwayNetworkCost._cost_fuel_and_lub,
    RailwayNetworkCost._cost_mobility_maintenance,
    RailwayNetworkCost._cost_manpower, RailwayNetworkCost._cost_eac_ton_km,
    BaseNetworkCost.param, BaseModalNetwork.param,
    BaseNetworkCost.rn_wagons, BaseNetworkCost.rn_locoms.
  rewrite E1, E2, E3, E4, E5, E6, E7, Ew, El. cbn [rbind]. cbv zeta.
  destruct (Qltb (1 # 10) (total_ton_km c)) eqn:G.
  - apply Qltb_lt in G.
    rewrite !py_div_ok by lra. cbn [rbind]. eauto.
  - cbn [rbind]. eauto.
Qed.

End CostReturns.

Lemma rail_total_mobility_is_sum_witness :
  exists RV t,
    RailwayNetworkCost.cost_mobility
      (mkNetworkCost sample_rail_network 100000) = Ok RV /\
    RV !! "total_mobility"%string = Some t /\ size RV = 6%nat.
Proof.
  destruct (rail_cost_mobility_returns
              (mkNetworkCost sample_rail_network 100000)
              6000 150000 2 (1 # 15) 100000 2500 30
              (mkSampleRollingMaterial (Q2Qc 4000) (Q2Qc 2000) 40 8000
                 (1 # 2))
              (mkSampleRollingMaterial (Q2Qc 300) (Q2Qc 100) 40 6500 0))
    as (RV & E); try reflexivity.
  destruct (rail_total_mobility_is_sum _ RV E)
    as (w & l & f & m & p & t & _ & _ & _ & _ & _ & _ & _ & _ & _ & _ & Et
        & _ & Hs).
  exists RV, t. repeat split; assumption.
Defined.

Lemma rail_costs_guarded_witness :
  exists RV,
    RailwayNetworkCost.cost_mobility
      (mkNetworkCost sample_rail_network (1 # 20)) = Ok RV /\
    forall k v, RV !! k = Some v -> v == 0.
Proof.
  destruct (rail_cost_mobility_returns
              (mkNetworkCost sample_rail_network (1 # 20))
              6000 150000 2 (1 # 15) 100000 2500 30
              (mkSampleRollingMaterial (Q2Qc 4000) (Q2Qc 2000) 40 8000
                 (1 # 2))
              (mkSampleRollingMaterial (Q2Qc 300) (Q2Qc 100) 40 6500 0))
    as (RV & E); try reflexivity.
  exists RV. split; [exact E|].
  destruct (rail_costs_guarded sample_pow
              (mkNetworkCost sample_rail_network (1 # 20))) as (K & _).
  - vm_compute. discriminate.
  - exact (K RV E).
Defined.

Lemma road_mobility_is_parameter_witness :
  exists c v,
    BaseNetworkCost.__init__ near_zero_road_network near_zero_heap = Ok c /\
    RoadwayNetworkCost.cost_mobility c near_zero_heap
    = Ok (<["total_mobility"%string := v]> ∅) /\
    v == 3.
Proof.
  destruct (BaseNetworkCost.__init__ near_zero_road_network near_zero_heap)
    as [c|e] eqn:E.
  - destruct (road_mobility_is_parameter near_zero_road_network
                near_zero_heap c 3 E eq_refl) as (v & C & Hv & _).
    exists c, v. repeat split; assumption.
  - vm_compute in E. discriminate E.
Defined.

Lemma number_of_detours_witness :
  exists num,
    RailwayNetworkCost._calc_number_of_detours sample_turnout_cost
      300000000 100 = Ok num /\
    (1000000 <= 300000000 / 100 -> num == 300000000 / (50 * 1000000)) /\
    100 / 50 <= num.
Proof.
  destruct (number_of_detours sample_turnout_cost 300000000 100 50 1000000)
    as (num & E & _ & K & B); try reflexivity.
  exists num. repeat split; assumption.
Defined.

Lemma zero_length_link_cannot_be_costed_witness :
  RailwayNetworkCost.cost_infrast_link sample_pow sample_turnout_cost
    60 20 2400 120
    (∅, <["1-3"%string :=
            <["ancha"%string := mkSampleLink 0 1000 (Q2Qc 0) 0 0 0]> ∅]> ∅)
    ("1-3", "ancha")%string
  = Raise ZeroDivisionError.
Proof.
  eapply (zero_length_link_cannot_be_costed sample_pow sample_turnout_cost
            60 20 2400 120 ∅ _ ("1-3", "ancha")%string _
            (mkSampleLink 0 1000 (Q2Qc 0) 0 0 0)).
  - reflexivity.
  - reflexivity.
  - reflexivity.
  - reflexivity.
  - vm_compute. reflexivity.
  - reflexivity.
  - reflexivity.
Defined.
